(** * Intuit MCP server: token cache, request envelope and tool entry point

    A shallow embedding of [intuit_mcp_server.py].  The Python code is
    dynamically typed and effectful, so the embedding has three layers:

    - [pyval] and the handful of Python operations the source applies to
      decoded JSON (truthiness, [in], subscripts, slices, [.get], [.lower]),
      each raising the exception Python raises on a wrong operand;
    - a state-and-exception monad [M]: the process-wide [token_cache], the
      count of [time.time()] readings and the trace of HTTP requests survive
      a raised exception, as they do in Python;
    - the three coroutines [get_access_token], [make_intuit_request] and
      [intuit_execute_graphql], and the start-up code of the module.

    Modelling conventions: timestamps and JSON numbers are exact integers
    (the source uses float seconds; an integer too large for a float makes
    the addition of line 105 raise, as it does in Python); a Python [str] is
    the [string] of its UTF-8 bytes, and slices and lengths count
    characters; a [dict] is an association list in insertion order with
    unique keys.  Each call runs to its end before the next one starts.  The
    [json] module, [httpx] and the clock are not part of the repository:
    they are the fields of the classes [PyRuntime] and [World]. *)

From Stdlib Require Import String Ascii List ZArith Bool Lia DecimalString.
Import ListNotations.
Local Open Scope string_scope.
Local Open Scope Z_scope.

(** ** Python values *)

#[local] Set Warnings "-register-all".

Inductive pyval : Type :=
| PNone
| PBool (b : bool)
| PInt (z : Z)
| PStr (s : string)
| PList (l : list pyval)
| PDict (d : list (string * pyval)).

Definition dict := list (string * pyval).

Section Assoc.
Context {V : Type}.

Fixpoint assoc_get (k : string) (d : list (string * V)) : option V :=
  match d with
  | [] => None
  | (k', v) :: d' => if String.eqb k k' then Some v else assoc_get k d'
  end.

Definition assoc_has (k : string) (d : list (string * V)) : bool :=
  match assoc_get k d with Some _ => true | None => false end.

(** [d[k] = v]: overwrite in place, or append a new key. *)
Fixpoint assoc_set (k : string) (v : V) (d : list (string * V))
  : list (string * V) :=
  match d with
  | [] => [(k, v)]
  | (k', v') :: d' =>
      if String.eqb k k' then (k', v) :: d' else (k', v') :: assoc_set k v d'
  end.
End Assoc.

(** ** Strings *)

Definition str_nonempty (s : string) : bool :=
  match s with EmptyString => false | String _ _ => true end.

(** [sub in s] on two strings. *)
Fixpoint contains (sub s : string) : bool :=
  prefix sub s ||
  match s with
  | EmptyString => false
  | String _ s' => contains sub s'
  end.

Definition lower_ascii (c : ascii) : ascii :=
  let n := nat_of_ascii c in
  if (Nat.leb 65 n && Nat.leb n 90)%bool then ascii_of_nat (n + 32) else c.

Fixpoint lower (s : string) : string :=
  match s with
  | EmptyString => EmptyString
  | String c s' => String (lower_ascii c) (lower s')
  end.

(** A byte that continues a character begun by an earlier byte. *)
Definition is_continuation (c : ascii) : bool :=
  let n := nat_of_ascii c in (Nat.leb 128 n && Nat.ltb n 192)%bool.

(** [s[:n]]: the first [n] characters. *)
Fixpoint take_chars (n : nat) (s : string) : string :=
  match s with
  | EmptyString => EmptyString
  | String c s' =>
      if is_continuation c then String c (take_chars n s')
      else match n with
           | O => EmptyString
           | S n' => String c (take_chars n' s')
           end
  end.

(** [len(s)]: the number of characters. *)
Fixpoint char_count (s : string) : nat :=
  match s with
  | EmptyString => O
  | String c s' =>
      if is_continuation c then char_count s' else S (char_count s')
  end.

Definition str_of_Z (z : Z) : string := NilZero.string_of_int (Z.to_int z).

(** An optional string inside an f-string: [None] prints as its name. *)
Definition fmt_opt (o : option string) : string :=
  match o with Some s => s | None => "None" end.

(** Truthiness of an environment variable read with [os.getenv]. *)
Definition opt_truthy (o : option string) : bool :=
  match o with Some s => str_nonempty s | None => false end.

(** ** HTTP and exceptions *)

Record response := { status_code : Z; text : string }.

Inductive body :=
| FormBody (data : list (string * string))  (* [data=urlencode(data)] *)
| JsonBody (payload : pyval).               (* [json=payload] *)

Inductive request :=
| POST (url : string) (headers : list (string * string)) (b : body)
| GET (url : string) (headers : list (string * string)).

(** What [await client.post/get] does: a response of any status, or an
    [httpx.RequestError] (connection, timeout and the like). *)
Inductive http_result :=
| Responded (r : response)
| Failed (msg : string).

Inductive exn :=
| RequestError (msg : string)
| HTTPStatusError (r : response)
| JSONDecodeError
| TypeError
| KeyError
| IndexError
| AttributeError
| ValueError
| RecursionError
| UnicodeDecodeError
| OverflowError
| PyException (msg : string).   (* [raise Exception(msg)] *)

(** How [json.loads] fails: on a malformed text with the
    [json.JSONDecodeError] the source catches, and otherwise (an integer
    of too many digits, nesting beyond the recursion limit, bytes that are
    not UTF-8) with an exception the source does not name. *)
Inductive decode_failure :=
| Malformed
| TooManyDigits
| TooDeep
| NotUnicode.

Definition decode_exn (f : decode_failure) : exn :=
  match f with
  | Malformed => JSONDecodeError
  | TooManyDigits => ValueError
  | TooDeep => RecursionError
  | NotUnicode => UnicodeDecodeError
  end.

Inductive outcome (A : Type) :=
| Return (a : A)
| Raise (e : exn).
Arguments Return {A} a.
Arguments Raise {A} e.

(** ** The library and the outside world *)

Class PyRuntime := {
  (** [json.loads] of a text (also behind [response.json()]); [None]
      when it raises. *)
  json_loads : string -> option pyval;
  (** how it fails on a text it does not decode *)
  json_failure : string -> decode_failure;
  (** [json.dumps] *)
  json_dumps : pyval -> string;
  (** [str(v)] of a value that is not a [str] *)
  py_repr : pyval -> string;
  (** [str(e)] of an exception raised by the interpreter or by httpx *)
  builtin_message : exn -> string
}.

Class World := {
  (** the n-th reading of [time.time()] *)
  clock : nat -> Z;
  (** the answer to a request, given how many were sent before it *)
  net : nat -> request -> http_result
}.

(** ** Process state *)

Record cache := { access_token : pyval; expires_at : Z }.

Record state := {
  token_cache : cache;
  clock_reads : nat;
  trace : list request
}.

(** The module-level [token_cache] literal. *)
Definition empty_cache : cache := {| access_token := PNone; expires_at := 0 |}.

Definition initial_state : state :=
  {| token_cache := empty_cache; clock_reads := 0%nat; trace := [] |}.

Definition M (A : Type) : Type := state -> outcome A * state.

Definition ret {A} (a : A) : M A := fun s => (Return a, s).
Definition raise {A} (e : exn) : M A := fun s => (Raise e, s).
Definition bind {A B} (c : M A) (k : A -> M B) : M B :=
  fun s => match c s with
           | (Return a, s') => k a s'
           | (Raise e, s') => (Raise e, s')
           end.
(** [try: c except ... as e: h e] *)
Definition try_except {A} (c : M A) (h : exn -> M A) : M A :=
  fun s => match c s with
           | (Return a, s') => (Return a, s')
           | (Raise e, s') => h e s'
           end.
Definition lift {A} (o : outcome A) : M A := fun s => (o, s).

Declare Scope py_scope.
Delimit Scope py_scope with py.
Notation "x <- c ;; k" := (bind c (fun x => k))
  (at level 61, c at next level, right associativity) : py_scope.
Notation "c ;;; k" := (bind c (fun _ => k))
  (at level 61, right associativity) : py_scope.
Local Open Scope py_scope.

(** ** Python operations on values *)

Definition truthy (v : pyval) : bool :=
  match v with
  | PNone => false
  | PBool b => b
  | PInt z => negb (z =? 0)
  | PStr s => str_nonempty s
  | PList l => match l with [] => false | _ => true end
  | PDict d => match d with [] => false | _ => true end
  end.

Definition is_str (k : string) (v : pyval) : bool :=
  match v with PStr s => String.eqb k s | _ => false end.

(** [k in v] for a string [k]. *)
Definition py_in (k : string) (v : pyval) : outcome bool :=
  match v with
  | PDict d => Return (assoc_has k d)
  | PList l => Return (existsb (is_str k) l)
  | PStr s => Return (contains k s)
  | _ => Raise TypeError
  end.

(** [v[k]] for a string [k]. *)
Definition py_getitem (v : pyval) (k : string) : outcome pyval :=
  match v with
  | PDict d => match assoc_get k d with
               | Some x => Return x
               | None => Raise KeyError
               end
  | _ => Raise TypeError
  end.

(** [v[0]]; a decoded JSON object has string keys only. *)
Definition py_first (v : pyval) : outcome pyval :=
  match v with
  | PList (x :: _) => Return x
  | PList [] => Raise IndexError
  | PStr (String c s) => Return (PStr (take_chars 1 (String c s)))
  | PStr EmptyString => Raise IndexError
  | PDict _ => Raise KeyError
  | _ => Raise TypeError
  end.

(** [v[:n]], evaluated inside the debug prints; only whether it raises
    matters (a dict rejects a slice key). *)
Definition py_slice_ok (v : pyval) : outcome unit :=
  match v with
  | PStr _ | PList _ => Return tt
  | _ => Raise TypeError
  end.

(** [v.get(k, default)] *)
Definition py_get (v : pyval) (k : string) (default : pyval) : outcome pyval :=
  match v with
  | PDict d => Return (match assoc_get k d with Some x => x | None => default end)
  | _ => Raise AttributeError
  end.

(** [v.lower()] *)
Definition py_lower (v : pyval) : outcome string :=
  match v with
  | PStr s => Return (lower s)
  | _ => Raise AttributeError
  end.

(** [v[k] = x] *)
Definition py_setitem (v : pyval) (k : string) (x : pyval) : outcome pyval :=
  match v with
  | PDict d => Return (PDict (assoc_set k x d))
  | _ => Raise TypeError
  end.

(** An integer converts to a float when it rounds to a finite one. *)
Definition float_limit : Z := 2 ^ 1024 - 2 ^ 970.

Definition fits_float (z : Z) : bool := Z.abs z <? float_limit.

(** [t + v] for a float timestamp [t]: an [int] is converted to a float
    first; [bool] is a subclass of [int]. *)
Definition py_add_time (t : Z) (v : pyval) : outcome Z :=
  match v with
  | PInt z => if fits_float z then Return (t + z) else Raise OverflowError
  | PBool b => Return (t + (if b then 1 else 0))
  | _ => Raise TypeError
  end.

(** [str(v)], as an f-string field does it. *)
Definition py_str `{PyRuntime} (v : pyval) : string :=
  match v with PStr s => s | _ => py_repr v end.

(** [str(e)] *)
Definition str_exn `{PyRuntime} (e : exn) : string :=
  match e with
  | RequestError m => m
  | PyException m => m
  | _ => builtin_message e
  end.

(** ** Configuration (module globals, lines 14-45) *)

Record config := {
  INTUIT_CLIENT_ID : option string;
  INTUIT_CLIENT_SECRET : option string;
  INTUIT_REFRESH_TOKEN : option string;
  INTUIT_ENVIRONMENT : string;
  INTUIT_COMPANY_ID : option string
}.

Definition getenv_default (o : option string) (default : string) : string :=
  match o with Some s => s | None => default end.

Definition load_config (env : string -> option string) : config :=
  {| INTUIT_CLIENT_ID := env "INTUIT_CLIENT_ID";
     INTUIT_CLIENT_SECRET := env "INTUIT_CLIENT_SECRET";
     INTUIT_REFRESH_TOKEN := env "INTUIT_REFRESH_TOKEN";
     INTUIT_ENVIRONMENT := getenv_default (env "INTUIT_ENVIRONMENT") "sandbox";
     INTUIT_COMPANY_ID := env "INTUIT_COMPANY_ID" |}.

(** [all([INTUIT_CLIENT_ID, INTUIT_CLIENT_SECRET, INTUIT_REFRESH_TOKEN])] *)
Definition credentials_present (cfg : config) : bool :=
  opt_truthy (INTUIT_CLIENT_ID cfg) && opt_truthy (INTUIT_CLIENT_SECRET cfg)
  && opt_truthy (INTUIT_REFRESH_TOKEN cfg).

Definition INTUIT_GRAPHQL_URL (cfg : config) : string :=
  if String.eqb (INTUIT_ENVIRONMENT cfg) "sandbox"
  then "https://public-e2e.api.intuit.com/2020-04/graphql"
  else "https://public.api.intuit.com/2020-04/graphql".

Definition INTUIT_REST_API_URL (cfg : config) : string :=
  if String.eqb (INTUIT_ENVIRONMENT cfg) "sandbox"
  then "https://sandbox-quickbooks.api.intuit.com/v3/company/"
       ++ fmt_opt (INTUIT_COMPANY_ID cfg)
  else "https://quickbooks.api.intuit.com/v3/company/"
       ++ fmt_opt (INTUIT_COMPANY_ID cfg).

Definition INTUIT_OAUTH_URL : string :=
  "https://oauth.platform.intuit.com/oauth2/v1/tokens/bearer".

(** The global [INTUIT_COMPANY_ID] as a Python value. *)
Definition company_value (cfg : config) : pyval :=
  match INTUIT_COMPANY_ID cfg with Some c => PStr c | None => PNone end.

(** ** Effects *)

Section Server.
Context `{RT : PyRuntime} `{W : World}.
Variable cfg : config.

(** [time.time()] *)
Definition time_time : M Z := fun s =>
  (Return (clock (clock_reads s)),
   {| token_cache := token_cache s;
      clock_reads := S (clock_reads s);
      trace := trace s |}).

(** [await client.post(...)] / [await client.get(...)] *)
Definition send (rq : request) : M response := fun s =>
  let s' := {| token_cache := token_cache s;
               clock_reads := clock_reads s;
               trace := trace s ++ [rq] |} in
  match net (length (trace s)) rq with
  | Responded r => (Return r, s')
  | Failed m => (Raise (RequestError m), s')
  end.

(** [response.raise_for_status()]: httpx raises outside 2xx. *)
Definition is_success (r : response) : bool :=
  (200 <=? status_code r) && (status_code r <=? 299).

Definition raise_for_status (r : response) : M unit :=
  if is_success r then ret tt else raise (HTTPStatusError r).

(** [response.json()] *)
Definition response_json (r : response) : M pyval :=
  match json_loads (text r) with
  | Some v => ret v
  | None => raise (decode_exn (json_failure (text r)))
  end.

Definition get_cache : M cache := fun s => (Return (token_cache s), s).

(** [token_cache["access_token"] = v] *)
Definition set_access_token (v : pyval) : M unit := fun s =>
  (Return tt,
   {| token_cache := {| access_token := v;
                        expires_at := expires_at (token_cache s) |};
      clock_reads := clock_reads s;
      trace := trace s |}).

(** [token_cache["expires_at"] = t] *)
Definition set_expires_at (t : Z) : M unit := fun s =>
  (Return tt,
   {| token_cache := {| access_token := access_token (token_cache s);
                        expires_at := t |};
      clock_reads := clock_reads s;
      trace := trace s |}).

(** ** [get_access_token] (lines 57-115) *)

Definition oauth_request : request :=
  POST INTUIT_OAUTH_URL
    [("Content-Type", "application/x-www-form-urlencoded")]
    (FormBody [("grant_type", "refresh_token");
               ("refresh_token", fmt_opt (INTUIT_REFRESH_TOKEN cfg));
               ("client_id", fmt_opt (INTUIT_CLIENT_ID cfg));
               ("client_secret", fmt_opt (INTUIT_CLIENT_SECRET cfg))]).

(** The cache test of line 64. *)
Definition cache_valid (c : cache) (current_time : Z) : bool :=
  truthy (access_token c) && (current_time + 60 <? expires_at c).

Definition get_access_token : M pyval :=
  current_time <- time_time ;;
  c <- get_cache ;;
  if cache_valid c current_time then
    (* line 65 slices the token for the debug print *)
    lift (py_slice_ok (access_token c)) ;;;
    ret (access_token c)
  else if negb (credentials_present cfg) then
    raise (PyException "Missing required Intuit OAuth credentials")
  else
    try_except
      (response <- send oauth_request ;;
       raise_for_status response ;;;
       token_data <- response_json response ;;
       tok <- lift (py_getitem token_data "access_token") ;;
       set_access_token tok ;;;
       expires_in <- lift (py_getitem token_data "expires_in") ;;
       t <- lift (py_add_time current_time expires_in) ;;
       set_expires_at t ;;;
       (* line 107 slices the new token for the debug print *)
       lift (py_slice_ok tok) ;;;
       ret tok)
      (fun e => raise e).

(** ** [make_intuit_request] (lines 117-183) *)

Definition envelope (msg : string) : pyval :=
  PDict [("errors", PList [PDict [("message", PStr msg)]])].

Definition graphql_headers (access_token : pyval) : list (string * string) :=
  [("Authorization", "Bearer " ++ py_str access_token);
   ("Content-Type", "application/json");
   ("User-Agent", "MCPIntuitServer/0.1.0")].

(** Lines 133-139.  [payload["variables"]] is the caller's own dict
    object; the caller does not read it again after the call. *)
Definition build_payload (query variables : pyval) : M dict :=
  let payload := [("query", query)] in
  let payload :=
    if truthy variables then assoc_set "variables" variables payload
    else payload in
  if truthy (company_value cfg) && assoc_has "variables" payload then
    vs <- lift (py_getitem (PDict payload) "variables") ;;
    present <- lift (py_in "realmId" vs) ;;
    if negb present then
      vs' <- lift (py_setitem vs "realmId" (company_value cfg)) ;;
      ret (assoc_set "variables" vs' payload)
    else ret payload
  else ret payload.

(** The body of [except httpx.HTTPStatusError] (lines 166-180); only
    [json.JSONDecodeError] is caught inside it. *)
Definition status_error_detail (r : response) : M string :=
  let error_detail := "HTTP Status Error: " ++ str_of_Z (status_code r) in
  try_except
    (err_resp <- response_json r ;;
     has_errors <- lift (py_in "errors" err_resp) ;;
     if has_errors then
       errs <- lift (py_getitem err_resp "errors") ;;
       first <- lift (py_first errs) ;;
       msg <- lift (py_getitem first "message") ;;
       ret (error_detail ++ " - " ++ py_str msg)
     else
       has_error <- lift (py_in "error" err_resp) ;;
       has_message <-
         (if has_error then
            err <- lift (py_getitem err_resp "error") ;;
            lift (py_in "message" err)
          else ret false) ;;
       if has_message then
         err <- lift (py_getitem err_resp "error") ;;
         msg <- lift (py_getitem err "message") ;;
         ret (error_detail ++ " - " ++ py_str msg)
       else
         ret (error_detail ++ " - Response: " ++ take_chars 200 (text r)))
    (fun e =>
       match e with
       | JSONDecodeError =>
           ret (error_detail ++ " - Response: " ++ take_chars 200 (text r))
       | _ => raise e
       end).

(** The [try] body, lines 123-161. *)
Definition graphql_call (query variables : pyval) : M pyval :=
  access_token <- get_access_token ;;
  payload <- build_payload query variables ;;
  (* line 142 slices the query for the debug print *)
  lift (py_slice_ok query) ;;;
  response <- send (POST (INTUIT_GRAPHQL_URL cfg)
                         (graphql_headers access_token)
                         (JsonBody (PDict payload))) ;;
  raise_for_status response ;;;
  result <- response_json response ;;
  has_errors <- lift (py_in "errors" result) ;;
  (if has_errors then lift (py_getitem result "errors") ;;; ret tt
   else ret tt) ;;;
  ret result.

(** The three [except] clauses.  An exception raised inside a clause is
    not offered to the clauses after it: it leaves the function. *)
Definition make_intuit_request (query variables : pyval) : M pyval :=
  try_except (graphql_call query variables)
    (fun e =>
       match e with
       | RequestError _ =>
           ret (envelope ("HTTP Request Error connecting to Intuit: "
                          ++ str_exn e))
       | HTTPStatusError r =>
           error_detail <- status_error_detail r ;;
           ret (envelope error_detail)
       | _ =>
           ret (envelope ("An unexpected error occurred: " ++ str_exn e))
       end).

(** ** [intuit_execute_graphql] (lines 186-383) *)

Definition is_None (v : pyval) : bool :=
  match v with PNone => true | _ => false end.

(** Line 325 when [json.loads] fails otherwise than with the
    [JSONDecodeError] that line 334 catches: the exception leaves the
    tool. *)
Definition loads_query (query : string) : outcome unit :=
  match json_loads query with
  | Some _ => Return tt
  | None =>
      match json_failure query with
      | Malformed => Return tt
      | f => Raise (decode_exn f)
      end
  end.

(** Lines 320-337 once [loads_query] has passed: unwrap a JSON document
    that carries a [query] key; a text that is not JSON stays as it is. *)
Definition normalize (query : string) (variables : pyval) : pyval * pyval :=
  let processed_query := PStr query in
  let processed_variables :=
    if truthy variables then variables else PDict [] in
  match json_loads query with
  | Some (PDict query_json) =>
      match assoc_get "query" query_json with
      | Some q =>
          let processed_variables :=
            match assoc_get "variables" query_json with
            | Some vs =>
                if is_None processed_variables then vs
                else processed_variables
            | None => processed_variables
            end in
          (q, processed_variables)
      | None => (processed_query, processed_variables)
      end
  | Some _ => (processed_query, processed_variables)
  | None => (PStr query, processed_variables)
  end.

(** Lines 339-341. *)
Definition inject_company (processed_variables : pyval) : M pyval :=
  if truthy (company_value cfg) then
    present <- lift (py_in "realmId" processed_variables) ;;
    if negb present then
      lift (py_setitem processed_variables "realmId" (company_value cfg))
    else ret processed_variables
  else ret processed_variables.

Definition fallback_note : string :=
  "This data was retrieved using REST API fallback".

Definition company_info_request (access_token : pyval) : request :=
  GET (INTUIT_REST_API_URL cfg ++ "/companyinfo/"
       ++ fmt_opt (INTUIT_COMPANY_ID cfg))
      [("Authorization", "Bearer " ++ py_str access_token);
       ("Accept", "application/json")].

(** The dict literal of lines 369-378. *)
Definition map_company_info (rest_result : pyval) : outcome pyval :=
  match py_get rest_result "CompanyInfo" (PDict []) with
  | Raise e => Raise e
  | Return info =>
      match py_get info "CompanyName" PNone,
            py_get info "LegalName" PNone,
            py_get info "CompanyAddr" PNone with
      | Return name, Return legal, Return addr =>
          Return (PDict [("data", PDict [("company", PDict
            [("companyName", name);
             ("legalName", legal);
             ("companyAddr", addr);
             ("note", PStr fallback_note)])])])
      | Raise e, _, _ => Raise e
      | _, Raise e, _ => Raise e
      | _, _, Raise e => Raise e
      end
  end.

(** Lines 353-380: [result] is rebound only when the whole literal has
    been evaluated. *)
Definition rest_fallback (result : pyval) : M pyval :=
  try_except
    (access_token <- get_access_token ;;
     response <- send (company_info_request access_token) ;;
     if status_code response =? 200 then
       rest_result <- response_json response ;;
       lift (map_company_info rest_result)
     else ret result)
    (fun _ => ret result).

(** The test of line 352; [and] evaluates its right operand only when
    the left one holds. *)
Definition mentions_company (processed_query : pyval) : M bool :=
  l1 <- lift (py_lower processed_query) ;;
  if contains "company" l1 then
    l2 <- lift (py_lower processed_query) ;;
    ret (contains "companyname" l2)
  else ret false.

Definition opt_dict (variables : option dict) : pyval :=
  match variables with Some d => PDict d | None => PNone end.

(** The tool without its final [json.dumps]. *)
Definition execute (query : string) (variables : option dict) : M pyval :=
  lift (loads_query query) ;;;
  let '(processed_query, processed_variables) :=
    normalize query (opt_dict variables) in
  processed_variables <- inject_company processed_variables ;;
  result <- make_intuit_request processed_query processed_variables ;;
  has_errors <- lift (py_in "errors" result) ;;
  if has_errors && truthy (company_value cfg) then
    applicable <- mentions_company processed_query ;;
    if applicable then rest_fallback result else ret result
  else ret result.

Definition intuit_execute_graphql (query : string) (variables : option dict)
  : M string :=
  result <- execute query variables ;;
  ret (json_dumps result).

End Server.

(** ** Start-up (lines 11-49 and 385-396) *)

Definition msg_error : string :=
  "ERROR: Intuit credentials not found in .env file or environment variables.".
Definition msg_configured (cfg : config) : string :=
  "Configured for Intuit Environment: " ++ INTUIT_ENVIRONMENT cfg.
Definition msg_stopped : string := "Server stopped.".
Definition msg_fatal : string :=
  "FATAL: Cannot start server, Intuit credentials missing.".

(** One of the debug prints of lines 21-23: the slice [v[:5]] is taken
    whether or not [v] is set; only [len(v)] is guarded. *)
Definition debug_credential (label : string) (v : option string)
  : outcome string :=
  match v with
  | None => Raise TypeError
  | Some s =>
      Return ("Debug - " ++ label ++ ": " ++ take_chars 5 s
              ++ "... (length: "
              ++ str_of_Z (if str_nonempty s
                           then Z.of_nat (char_count s) else 0)
              ++ ")")
  end.

(** Executing the module body: what reaches stderr, and the globals. *)
Definition import_module (env : string -> option string)
  : list string * outcome config :=
  let cfg := load_config env in
  match debug_credential "Client ID" (INTUIT_CLIENT_ID cfg) with
  | Raise e => ([], Raise e)
  | Return l1 =>
  match debug_credential "Client Secret" (INTUIT_CLIENT_SECRET cfg) with
  | Raise e => ([l1], Raise e)
  | Return l2 =>
  match debug_credential "Refresh Token" (INTUIT_REFRESH_TOKEN cfg) with
  | Raise e => ([l1; l2], Raise e)
  | Return l3 =>
      let log := [l1; l2; l3;
                  "Debug - Environment: " ++ INTUIT_ENVIRONMENT cfg;
                  "Debug - Company ID: " ++ fmt_opt (INTUIT_COMPANY_ID cfg)] in
      ((if negb (credentials_present cfg) then (log ++ [msg_error])%list else log),
       Return cfg)
  end end end.

Inductive startup :=
| Crashed (e : exn)   (* the module body raised: traceback, no server *)
| Refused             (* the [__main__] guard declined to run the server *)
| Served.             (* [mcp.run(transport='stdio')] was entered *)

(** [stderr] holds the lines of the module body and of the [__main__]
    block; the debug lines of the coroutines are not recorded. *)
Record process := {
  stderr : list string;
  status : startup;
  replies : list (outcome string);
  final : state
}.

Section Process.
Context `{RT : PyRuntime} `{W : World}.

(** [mcp.run]: the tool is invoked once per incoming call. *)
Fixpoint serve (cfg : config) (calls : list (string * option dict))
  (s : state) : list (outcome string) * state :=
  match calls with
  | [] => ([], s)
  | (query, variables) :: rest =>
      let '(o, s1) := intuit_execute_graphql cfg query variables s in
      let '(os, s2) := serve cfg rest s1 in
      (o :: os, s2)
  end.

(** Running the file as a script with the given environment and the
    tool calls a client would make. *)
Definition main (env : string -> option string)
  (calls : list (string * option dict)) : process :=
  match import_module env with
  | (log, Raise e) =>
      {| stderr := log; status := Crashed e;
         replies := []; final := initial_state |}
  | (log, Return cfg) =>
      if negb (credentials_present cfg) then
        {| stderr := (log ++ [msg_fatal])%list; status := Refused;
           replies := []; final := initial_state |}
      else
        let '(os, s) := serve cfg calls initial_state in
        {| stderr := (log ++ [msg_configured cfg; msg_stopped])%list;
           status := Served; replies := os; final := s |}
  end.
End Process.

(** ** Concrete surroundings for the examples *)

Module Sample.

(** The double quote of a JSON text. *)
Definition q : string := String (ascii_of_nat 34) EmptyString.

Definition key (k : string) : string := q ++ k ++ q ++ ": ".

(** [{"query": 5}] *)
Definition doc_query_5 : string := "{" ++ key "query" ++ "5}".
(** [{"query": "{ a }", "variables": {"x": 1}}] *)
Definition doc_wrapped : string :=
  "{" ++ key "query" ++ q ++ "{ a }" ++ q ++ ", "
      ++ key "variables" ++ "{" ++ key "x" ++ "1}}".
(** [{"errors": []}] *)
Definition doc_no_errors : string := "{" ++ key "errors" ++ "[]}".
(** [{"errors": [{"code": 7}]}] *)
Definition doc_no_message : string :=
  "{" ++ key "errors" ++ "[{" ++ key "code" ++ "7}]}".
(** [{"errors": [{"message": "Bad field"}]}] *)
Definition doc_bad_field : string :=
  "{" ++ key "errors" ++ "[{" ++ key "message" ++ q ++ "Bad field" ++ q
      ++ "}]}".
(** [{"access_token": "tok"}] *)
Definition doc_token_only : string :=
  "{" ++ key "access_token" ++ q ++ "tok" ++ q ++ "}".
(** [{"access_token": "tok", "expires_in": 3600}] *)
Definition doc_token_3600 : string :=
  "{" ++ key "access_token" ++ q ++ "tok" ++ q ++ ", "
      ++ key "expires_in" ++ "3600}".
(** [{"access_token": "tok", "expires_in": 30}] *)
Definition doc_token_30 : string :=
  "{" ++ key "access_token" ++ q ++ "tok" ++ q ++ ", "
      ++ key "expires_in" ++ "30}".
(** [{"CompanyInfo": {"CompanyName": "Acme"}}] *)
Definition doc_acme : string :=
  "{" ++ key "CompanyInfo" ++ "{" ++ key "CompanyName" ++ q ++ "Acme" ++ q
      ++ "}}".
(** [{"data": {"ok": true}}] *)
Definition doc_data : string :=
  "{" ++ key "data" ++ "{" ++ key "ok" ++ "true}}".

(** What [json.loads] makes of the documents above. *)
Definition documents : list (string * pyval) :=
  [(doc_query_5, PDict [("query", PInt 5)]);
   (doc_wrapped, PDict [("query", PStr "{ a }");
                        ("variables", PDict [("x", PInt 1)])]);
   (doc_no_errors, PDict [("errors", PList [])]);
   (doc_no_message, PDict [("errors", PList [PDict [("code", PInt 7)]])]);
   (doc_bad_field,
    PDict [("errors", PList [PDict [("message", PStr "Bad field")]])]);
   (doc_token_only, PDict [("access_token", PStr "tok")]);
   (doc_token_3600, PDict [("access_token", PStr "tok");
                           ("expires_in", PInt 3600)]);
   (doc_token_30, PDict [("access_token", PStr "tok");
                         ("expires_in", PInt 30)]);
   (doc_acme,
    PDict [("CompanyInfo", PDict [("CompanyName", PStr "Acme")])]);
   (doc_data, PDict [("data", PDict [("ok", PBool true)])])].

(** [json.dumps] with its default separators, for strings that need no
    escaping. *)
Fixpoint dumps (v : pyval) : string :=
  match v with
  | PNone => "null"
  | PBool true => "true"
  | PBool false => "false"
  | PInt z => str_of_Z z
  | PStr s => q ++ s ++ q
  | PList l =>
      "[" ++ (fix items (l : list pyval) : string :=
                match l with
                | [] => ""
                | [x] => dumps x
                | x :: r => dumps x ++ ", " ++ items r
                end) l ++ "]"
  | PDict d =>
      "{" ++ (fix items (d : list (string * pyval)) : string :=
                match d with
                | [] => ""
                | [(k, x)] => key k ++ dumps x
                | (k, x) :: r => key k ++ dumps x ++ ", " ++ items r
                end) d ++ "}"
  end.

(** A runtime that decodes the documents above and rejects every other
    text; the examples only hand it those documents and raw GraphQL. *)
Definition runtime : PyRuntime :=
  {| json_loads := fun s => assoc_get s documents;
     json_failure := fun _ => Malformed;
     json_dumps := dumps;
     py_repr := dumps;
     builtin_message := fun e =>
       match e with
       | TypeError => "TypeError"
       | KeyError => "KeyError"
       | IndexError => "IndexError"
       | AttributeError => "AttributeError"
       | JSONDecodeError => "JSONDecodeError"
       | _ => "error"
       end |}.

(** A world whose clock stands at [now] and whose servers answer the
    n-th request with the n-th entry of [answers]. *)
Definition world (now : Z) (answers : list http_result) : World :=
  {| clock := fun _ => now;
     net := fun n _ => nth n answers (Failed "connection refused") |}.

Definition ok (body : string) : http_result :=
  Responded {| status_code := 200; text := body |}.
Definition bad_request (body : string) : http_result :=
  Responded {| status_code := 400; text := body |}.

(** All credentials set, sandbox, with or without a company. *)
Definition cfg (company : option string) : config :=
  {| INTUIT_CLIENT_ID := Some "client";
     INTUIT_CLIENT_SECRET := Some "secret";
     INTUIT_REFRESH_TOKEN := Some "refresh";
     INTUIT_ENVIRONMENT := "sandbox";
     INTUIT_COMPANY_ID := company |}.

(** The client secret is set, but to the empty string. *)
Definition cfg_empty_secret : config :=
  {| INTUIT_CLIENT_ID := Some "client";
     INTUIT_CLIENT_SECRET := Some "";
     INTUIT_REFRESH_TOKEN := Some "refresh";
     INTUIT_ENVIRONMENT := "sandbox";
     INTUIT_COMPANY_ID := None |}.

(** No variable is set at all. *)
Definition env_unset : string -> option string := fun _ => None.

(** The three credentials are set, the secret to the empty string. *)
Definition env_empty_secret : string -> option string := fun name =>
  if String.eqb name "INTUIT_CLIENT_ID" then Some "client"
  else if String.eqb name "INTUIT_CLIENT_SECRET" then Some ""
  else if String.eqb name "INTUIT_REFRESH_TOKEN" then Some "refresh"
  else None.

Definition company_query : string := "query { company { companyName } }".

(** A token is issued, the GraphQL request fails in transport, the
    company-info endpoint answers 200. *)
Definition fallback_world : World :=
  world 1000 [ok doc_token_3600; Failed "boom"; ok doc_acme].

(** A token is issued and the GraphQL endpoint answers 200. *)
Definition happy_world : World :=
  world 1000 [ok doc_token_3600; ok doc_data].

(** A token is issued and the GraphQL endpoint answers 400 with [body]. *)
Definition rejecting_world (body : string) : World :=
  world 1000 [ok doc_token_3600; bad_request body].

(** A cache holding token ["cached"] until [until]. *)
Definition cached (until : Z) : state :=
  {| token_cache := {| access_token := PStr "cached"; expires_at := until |};
     clock_reads := 0%nat; trace := [] |}.

End Sample.


(** ** Vocabulary of the statements *)

Section Vocabulary.
Context `{RT : PyRuntime} `{W : World}.
Variable cfg : config.

(** The two fields line 104 and line 105 read from a token response:
    the token and the lifetime added to the clock reading. *)
Definition token_fields (r : response) : option (pyval * Z) :=
  match json_loads (text r) with
  | Some token_data =>
      match py_getitem token_data "access_token",
            py_getitem token_data "expires_in" with
      | Return tok, Return v =>
          match py_add_time 0 v with
          | Return d => Some (tok, d)
          | Raise _ => None
          end
      | _, _ => None
      end
  | None => None
  end.

Definition missing_credentials : exn :=
  PyException "Missing required Intuit OAuth credentials".

(** A computation only ever appends requests satisfying [P]. *)
Definition sends (P : request -> Prop) {A} (c : M A) : Prop :=
  forall s o s', c s = (o, s') ->
  exists new, trace s' = (trace s ++ new)%list /\ Forall P new.

(** [c] can return [a]. *)
Definition returns {A} (c : M A) (a : A) : Prop :=
  exists s s', c s = (Return a, s').

(** The caller's variables as the dict the tool works on. *)
Definition caller_dict (variables : option dict) : dict :=
  match variables with Some d => d | None => [] end.

(** The fallback trigger of lines 347 and 352 on a result the request
    returned and a normalized query. *)
Definition has_errors_key (result : pyval) : bool :=
  match py_in "errors" result with Return b => b | Raise _ => false end.

Definition query_text_mentions_company (processed_query : pyval) : bool :=
  match processed_query with
  | PStr t => contains "company" (lower t) && contains "companyname" (lower t)
  | _ => false
  end.

Definition fallback_wanted (result processed_query : pyval) : bool :=
  has_errors_key result && truthy (company_value cfg)
  && query_text_mentions_company processed_query.

(** Lines 339-341 on a dict, for a configured company [c]. *)
Definition injected (c : string) (d : dict) : dict :=
  if assoc_has "realmId" d then d else assoc_set "realmId" (PStr c) d.

(** [d.get(k)] *)
Definition get_or_none (k : string) (d : dict) : pyval :=
  match assoc_get k d with Some v => v | None => PNone end.

(** The state after one more request has been sent. *)
Definition sent (rq : request) (s : state) : state :=
  {| token_cache := token_cache s;
     clock_reads := clock_reads s;
     trace := trace s ++ [rq] |}.

End Vocabulary.


(** ** Vocabulary of the further statements *)

Section MoreVocabulary.
Context `{RT : PyRuntime} `{W : World}.
Variable cfg : config.

(** The state after one more reading of the clock. *)
Definition tick (s : state) : state :=
  {| token_cache := token_cache s;
     clock_reads := S (clock_reads s);
     trace := trace s |}.

(** No request, or a single one of the given kind. *)
Definition at_most_one (P : request -> Prop) (l : list request) : Prop :=
  l = [] \/ exists rq, l = [rq] /\ P rq.

(** The GraphQL request, authorized with the token [tok]. *)
Definition is_graphql_post (tok : pyval) (rq : request) : Prop :=
  exists payload,
    rq = POST (INTUIT_GRAPHQL_URL cfg) (graphql_headers tok)
              (JsonBody (PDict payload)).

(** The company-info request of the fallback. *)
Definition is_company_get (rq : request) : Prop :=
  exists tok, rq = company_info_request cfg tok.

(** [c] keeps the invariant [I] on states and only appends requests
    satisfying [P], when started in a state satisfying [I]. *)
Definition keeps (I : state -> Prop) (P : request -> Prop) {A} (c : M A)
  : Prop :=
  forall s o s', c s = (o, s') -> I s ->
  I s' /\ exists new, trace s' = (trace s ++ new)%list /\ Forall P new.

(** The cache is [c0] and at least [n0] clock readings have been made. *)
Definition cache_is (c0 : cache) (n0 : nat) (s : state) : Prop :=
  token_cache s = c0 /\ (n0 <= clock_reads s)%nat.

(** A request that is not a form POST, that is, not a token exchange. *)
Definition not_a_token_exchange (rq : request) : Prop :=
  forall url headers data, rq <> POST url headers (FormBody data).

(** The object of lines 369-378 for a [CompanyInfo] dict [info]. *)
Definition company_object (info : dict) : pyval :=
  PDict [("data", PDict [("company", PDict
    [("companyName", get_or_none "CompanyName" info);
     ("legalName", get_or_none "LegalName" info);
     ("companyAddr", get_or_none "CompanyAddr" info);
     ("note", PStr fallback_note)])])].

(** The answer of the company-info endpoint that replaces [result]:
    status 200 with a JSON object whose [CompanyInfo] is absent or is
    itself an object.  Every other answer keeps [result]. *)
Definition fallback_outcome (result : pyval) (answer : http_result) : pyval :=
  match answer with
  | Responded r =>
      if status_code r =? 200 then
        match json_loads (text r) with
        | Some (PDict d) =>
            match assoc_get "CompanyInfo" d with
            | None => company_object []
            | Some (PDict info) => company_object info
            | Some _ => result
            end
        | _ => result
        end
      else result
  | Failed _ => result
  end.

(** The JSON request of a tool call for the variables argument, with a
    company [c] configured. *)
Definition expected_payload (c : string) (query : string)
  (variables : option dict) : pyval :=
  PDict [("query", fst (normalize query (opt_dict variables)));
         ("variables", PDict (injected c (caller_dict variables)))].

(** The company object with the three fields [None]. *)
Definition empty_company : pyval :=
  PDict [("data", PDict [("company", PDict
    [("companyName", PNone);
     ("legalName", PNone);
     ("companyAddr", PNone);
     ("note", PStr fallback_note)])])].

Definition missing_credentials_envelope : pyval :=
  envelope
    "An unexpected error occurred: Missing required Intuit OAuth credentials".

End MoreVocabulary.

(** ** Further concrete surroundings *)

Module Fixture.

Import Sample.

(** [{"error": {"message": "invalid_grant"}}] *)
Definition doc_oauth_error : string :=
  "{" ++ key "error" ++ "{" ++ key "message" ++ q ++ "invalid_grant" ++ q
      ++ "}}".
(** [{}] *)
Definition doc_empty_object : string := "{}".
(** [{"query": "{ a }", "variables": {"realmId": "7", "x": 1}}] *)
Definition doc_wrapped_realm : string :=
  "{" ++ key "query" ++ q ++ "{ a }" ++ q ++ ", "
      ++ key "variables" ++ "{" ++ key "realmId" ++ q ++ "7" ++ q ++ ", "
      ++ key "x" ++ "1}}".
(** [{"detail": "nope"}] *)
Definition doc_detail : string :=
  "{" ++ key "detail" ++ q ++ "nope" ++ q ++ "}".

Definition documents : list (string * pyval) :=
  (Sample.documents
   ++ [(doc_oauth_error,
        PDict [("error", PDict [("message", PStr "invalid_grant")])]);
       (doc_empty_object, PDict []);
       (doc_wrapped_realm,
        PDict [("query", PStr "{ a }");
               ("variables", PDict [("realmId", PStr "7");
                                    ("x", PInt 1)])]);
       (doc_detail, PDict [("detail", PStr "nope")])])%list.

(** As [Sample.runtime], with the three documents above added. *)
Definition runtime : PyRuntime :=
  {| json_loads := fun s => assoc_get s documents;
     json_failure := fun _ => Malformed;
     json_dumps := dumps;
     py_repr := dumps;
     builtin_message := @builtin_message Sample.runtime |}.

(** An integer of 5000 digits: more than [json.loads] converts. *)
Definition many_digits : string :=
  String.concat "" (List.repeat "1" 5000).

(** As [runtime], but the decoder gives up on [many_digits] with a
    [ValueError]. *)
Definition strict_runtime : PyRuntime :=
  {| json_loads := fun s => assoc_get s documents;
     json_failure := fun s =>
       if String.eqb s many_digits then TooManyDigits else Malformed;
     json_dumps := dumps;
     py_repr := dumps;
     builtin_message := @builtin_message Sample.runtime |}.

Definition unauthorized (body : string) : http_result :=
  Responded {| status_code := 401; text := body |}.

(** The three credentials and the company are set. *)
Definition env_complete : string -> option string := fun name =>
  if String.eqb name "INTUIT_CLIENT_ID" then Some "client"
  else if String.eqb name "INTUIT_CLIENT_SECRET" then Some "secret"
  else if String.eqb name "INTUIT_REFRESH_TOKEN" then Some "refresh"
  else if String.eqb name "INTUIT_COMPANY_ID" then Some "42"
  else None.

End Fixture.


(** * Properties *)

(** ** Association lists and arithmetic on values *)

Lemma assoc_get_set {V} (k k' : string) (v : V) (d : list (string * V)) :
  assoc_get k (assoc_set k' v d)
  = if String.eqb k k' then Some v else assoc_get k d.
Proof.
  induction d as [|[k0 v0] d IH]; simpl.
  - destruct (String.eqb k k'); reflexivity.
  - destruct (String.eqb_spec k' k0) as [->|Hne]; simpl.
    + destruct (String.eqb k k0); reflexivity.
    + rewrite IH. destruct (String.eqb_spec k k0) as [->|Hne'].
      * destruct (String.eqb_spec k0 k') as [E|_]; [congruence|reflexivity].
      * reflexivity.
Qed.

Lemma assoc_has_set {V} (k : string) (v : V) (d : list (string * V)) :
  assoc_has k (assoc_set k v d) = true.
Proof.
  unfold assoc_has. rewrite assoc_get_set, String.eqb_refl. reflexivity.
Qed.

Lemma py_add_time_shift (t : Z) (v : pyval) (x : Z) :
  py_add_time t v = Return x ->
  exists d, py_add_time 0 v = Return d /\ x = t + d.
Proof.
  destruct v; simpl; try discriminate.
  - intros [= <-]; eauto.
  - destruct (fits_float z); [|discriminate]. intros [= <-]; eauto.
Qed.

Lemma py_getitem_kind (v : pyval) (k : string) (e : exn) :
  py_getitem v k = Raise e -> e = KeyError \/ e = TypeError.
Proof.
  destruct v; simpl; try (intros [= <-]; auto).
  destruct (assoc_get k d); [discriminate|]. intros [= <-]; auto.
Qed.

Lemma py_add_time_kind (t : Z) (v : pyval) (e : exn) :
  py_add_time t v = Raise e -> e = TypeError \/ e = OverflowError.
Proof.
  destruct v; simpl; try (intros [= <-]; auto); try discriminate.
  destruct (fits_float z); [discriminate|]. intros [= <-]; auto.
Qed.

Ltac run :=
  unfold bind, ret, raise, lift, try_except, time_time, get_cache,
    set_access_token, set_expires_at, send, raise_for_status,
    response_json in *;
  simpl in *.

Ltac case_scrutinee :=
  match goal with
  | |- context [match ?x with _ => _ end] =>
      lazymatch x with
      | context [match _ with _ => _ end] => fail
      | _ => destruct x eqn:?
      end
  end.


(** ** The token provider *)

Section TokenProvider.
Context `{RT : PyRuntime} `{W : World}.
Variable cfg : config.

(** Every call reads the clock exactly once. *)
Lemma get_access_token_clock (s : state) :
  clock_reads (snd (get_access_token cfg s)) = S (clock_reads s).
Proof.
  unfold get_access_token; run.
  repeat (case_scrutinee; run; try reflexivity).
Qed.

(** C1 (amended).  A call whose cached token is truthy and expires more
    than 60 seconds after the clock reading sends nothing, leaves the cache
    as it is and, the token being a string, returns that string.  Any
    other call with the three credentials set sends exactly one OAuth
    request and, when it returns a token, the cache holds that token and
    the clock reading plus the response's [expires_in].  With a
    credential missing the call raises without sending anything. *)
Theorem get_access_token_reuse_or_refresh (s : state) :
  let now := clock (clock_reads s) in
  let c := token_cache s in
  let o := fst (get_access_token cfg s) in
  let s' := snd (get_access_token cfg s) in
  if cache_valid c now then
    trace s' = trace s /\ token_cache s' = c /\
    (forall t, access_token c = PStr t -> o = Return (PStr t))
  else if credentials_present cfg then
    trace s' = (trace s ++ [oauth_request cfg])%list /\
    (forall tok, o = Return tok ->
       exists r d,
         net (length (trace s)) (oauth_request cfg) = Responded r /\
         is_success r = true /\
         token_fields r = Some (tok, d) /\
         token_cache s' = {| access_token := tok; expires_at := now + d |})
  else
    o = Raise missing_credentials /\ trace s' = trace s /\
    token_cache s' = c.
Proof.
  cbv zeta. unfold get_access_token; run.
  destruct (cache_valid (token_cache s) (clock (clock_reads s))) eqn:Hv.
  - destruct (py_slice_ok (access_token (token_cache s))) eqn:Hs; simpl;
      (split; [reflexivity|split; [reflexivity|]]).
    + intros t Ht. rewrite Ht. reflexivity.
    + intros t Ht. rewrite Ht in Hs. discriminate.
  - destruct (credentials_present cfg); simpl.
    2:{ repeat split. }
    unfold token_fields.
    destruct (net (length (trace s)) (oauth_request cfg)) as [r|m] eqn:Hn;
      simpl; [|split; [reflexivity|discriminate]].
    destruct (is_success r) eqn:Hok; simpl;
      [|split; [reflexivity|discriminate]].
    destruct (json_loads (text r)) as [token_data|] eqn:Hj; simpl;
      [|split; [reflexivity|discriminate]].
    destruct (py_getitem token_data "access_token") as [tok|] eqn:Ha; simpl;
      [|split; [reflexivity|discriminate]].
    destruct (py_getitem token_data "expires_in") as [v|] eqn:He; simpl;
      [|split; [reflexivity|discriminate]].
    destruct (py_add_time (clock (clock_reads s)) v) as [x|] eqn:Hadd; simpl;
      [|split; [reflexivity|discriminate]].
    destruct (py_add_time_shift _ _ _ Hadd) as (d & Hd & ->).
    destruct (py_slice_ok tok) eqn:Hs; simpl;
      (split; [reflexivity|]); [|discriminate].
    intros tok' [= <-]. exists r, d.
    rewrite Hj, Ha, He, Hd. repeat split; assumption || reflexivity.
Qed.

(** What a call that returns a token has done. *)
Lemma get_access_token_returns (s s' : state) (tok : pyval) :
  get_access_token cfg s = (Return tok, s') ->
  let now := clock (clock_reads s) in
  (cache_valid (token_cache s) now = true /\
   tok = access_token (token_cache s) /\
   token_cache s' = token_cache s /\ trace s' = trace s)
  \/
  (cache_valid (token_cache s) now = false /\
   exists r d,
     net (length (trace s)) (oauth_request cfg) = Responded r /\
     is_success r = true /\
     token_fields r = Some (tok, d) /\
     token_cache s' = {| access_token := tok; expires_at := now + d |} /\
     trace s' = (trace s ++ [oauth_request cfg])%list).
Proof.
  cbv zeta. unfold get_access_token, token_fields; run.
  destruct (cache_valid (token_cache s) (clock (clock_reads s))) eqn:Hv.
  - destruct (py_slice_ok _); simpl; intros [= <- <-]; simpl.
    left. repeat split.
  - destruct (credentials_present cfg); simpl; [|discriminate].
    destruct (net (length (trace s)) (oauth_request cfg)) as [r|m] eqn:Hn;
      simpl; [|discriminate].
    destruct (is_success r) eqn:Hok; simpl; [|discriminate].
    destruct (json_loads (text r)) as [token_data|] eqn:Hj; simpl;
      [|discriminate].
    destruct (py_getitem token_data "access_token") as [t|] eqn:Ha; simpl;
      [|discriminate].
    destruct (py_getitem token_data "expires_in") as [v|] eqn:He; simpl;
      [|discriminate].
    destruct (py_add_time (clock (clock_reads s)) v) as [x|] eqn:Hadd; simpl;
      [|discriminate].
    destruct (py_add_time_shift _ _ _ Hadd) as (d & Hd & ->).
    destruct (py_slice_ok t); simpl; [|discriminate].
    intros [= <- <-]; simpl. right. split; [reflexivity|].
    exists r, d. rewrite Hj, Ha, He, Hd. repeat split; assumption.
Qed.

(** C6 (amended).  A token the provider returns is the one in the cache
    afterwards.  On the cached path its expiry is more than 60 seconds
    after the clock reading; on the refreshed path its expiry is the clock
    reading plus the response's [expires_in], which is more than 60
    seconds away exactly when [expires_in] exceeds 60. *)
Theorem returned_token_expiry (s s' : state) (tok : pyval) :
  get_access_token cfg s = (Return tok, s') ->
  let now := clock (clock_reads s) in
  access_token (token_cache s') = tok /\
  ((cache_valid (token_cache s) now = true /\
    expires_at (token_cache s') > now + 60)
   \/
   (cache_valid (token_cache s) now = false /\
    exists r d,
      net (length (trace s)) (oauth_request cfg) = Responded r /\
      token_fields r = Some (tok, d) /\
      expires_at (token_cache s') = now + d /\
      (expires_at (token_cache s') > now + 60 <-> d > 60))).
Proof.
  intros Hrun now.
  destruct (get_access_token_returns _ _ _ Hrun)
    as [(Hv & -> & Hc & _)|(Hv & r & d & Hn & _ & Hf & Hc & _)];
    fold now in Hv; rewrite Hc.
  - split; [reflexivity|]. left. split; [assumption|].
    unfold cache_valid in Hv.
    apply andb_true_iff in Hv as [_ Hlt]. apply Z.ltb_lt in Hlt. lia.
  - simpl. split; [reflexivity|]. right. split; [assumption|].
    exists r, d. fold now. repeat split; try assumption; lia.
Qed.

(** X19.  What a call that raises has done to the cache: nothing; or
    stored the new token beside the old expiry, when line 105 could not
    read [expires_in] ([KeyError], [TypeError]) or add it to the clock
    reading ([TypeError], or [OverflowError] for an integer too large for
    a float); or stored both, when the token then failed the slice of
    line 107. *)
Lemma get_access_token_raises (s s' : state) (e : exn) :
  get_access_token cfg s = (Raise e, s') ->
  token_cache s' = token_cache s
  \/ (exists tok,
        token_cache s' = {| access_token := tok;
                            expires_at := expires_at (token_cache s) |} /\
        (e = KeyError \/ e = TypeError \/ e = OverflowError))
  \/ (exists tok d,
        token_cache s' = {| access_token := tok;
                            expires_at := clock (clock_reads s) + d |} /\
        py_slice_ok tok = Raise e).
Proof.
  unfold get_access_token; run.
  destruct (cache_valid (token_cache s) (clock (clock_reads s))).
  - destruct (py_slice_ok _); simpl; intros [= <- <-]; left; reflexivity.
  - destruct (credentials_present cfg); simpl;
      [|intros [= <- <-]; left; reflexivity].
    destruct (net (length (trace s)) (oauth_request cfg)) as [r|m]; simpl;
      [|intros [= <- <-]; left; reflexivity].
    destruct (is_success r); simpl; [|intros [= <- <-]; left; reflexivity].
    destruct (json_loads (text r)) as [token_data|]; simpl;
      [|intros [= <- <-]; left; reflexivity].
    destruct (py_getitem token_data "access_token") as [t|]; simpl;
      [|intros [= <- <-]; left; reflexivity].
    destruct (py_getitem token_data "expires_in") as [v|e1] eqn:He; simpl.
    2:{ intros [= <- <-]. right. left. exists t. split; [reflexivity|].
        apply py_getitem_kind in He. destruct He as [->| ->]; auto. }
    destruct (py_add_time (clock (clock_reads s)) v) as [x|e2] eqn:Hadd;
      simpl.
    2:{ intros [= <- <-]. right. left. exists t. split; [reflexivity|].
        apply py_add_time_kind in Hadd. destruct Hadd as [->| ->]; auto. }
    destruct (py_add_time_shift _ _ _ Hadd) as (d & _ & ->).
    destruct (py_slice_ok t) eqn:Hs; simpl; [discriminate|].
    intros [= <- <-]. right. right. exists t, d. split; [reflexivity|].
    exact Hs.
Qed.

End TokenProvider.


(** ** The API client *)

Section ApiClient.
Context `{RT : PyRuntime} `{W : World}.
Variable cfg : config.

(** [build_payload] neither reads nor writes the process state. *)
Lemma build_payload_pure (query variables : pyval) (s : state) :
  snd (build_payload cfg query variables s) = s.
Proof.
  unfold build_payload; run.
  repeat (case_scrutinee; run; try reflexivity).
Qed.

(** A non-2xx answer to the GraphQL request reaches the handlers as an
    [HTTPStatusError] carrying the response. *)
Lemma graphql_call_status_error
  (query variables tok : pyval) (payload : dict) (s s1 : state)
  (r : response) :
  get_access_token cfg s = (Return tok, s1) ->
  build_payload cfg query variables s1 = (Return payload, s1) ->
  py_slice_ok query = Return tt ->
  let rq := POST (INTUIT_GRAPHQL_URL cfg) (graphql_headers tok)
                 (JsonBody (PDict payload)) in
  net (length (trace s1)) rq = Responded r ->
  is_success r = false ->
  graphql_call cfg query variables s = (Raise (HTTPStatusError r), sent rq s1).
Proof.
  intros Htok Hpay Hslice rq Hnet Hbad.
  unfold graphql_call, bind. rewrite Htok, Hpay.
  unfold lift at 1. rewrite Hslice. unfold send. fold rq. rewrite Hnet.
  unfold raise_for_status. rewrite Hbad. reflexivity.
Qed.

(** A transport failure becomes the "HTTP Request Error" envelope. *)
Lemma transport_failure_envelope
  (query variables : pyval) (s s' : state) (m : string) :
  graphql_call cfg query variables s = (Raise (RequestError m), s') ->
  make_intuit_request cfg query variables s
  = (Return (envelope ("HTTP Request Error connecting to Intuit: " ++ m)), s').
Proof.
  intros H. unfold make_intuit_request, try_except. rewrite H. reflexivity.
Qed.

(** A non-2xx answer whose body carries [errors[0].message] becomes an
    envelope quoting that message. *)
Lemma status_error_envelope
  (query variables : pyval) (s s' : state) (r : response)
  (d e : dict) (rest : list pyval) (msg : string) :
  graphql_call cfg query variables s = (Raise (HTTPStatusError r), s') ->
  json_loads (text r) = Some (PDict d) ->
  assoc_get "errors" d = Some (PList (PDict e :: rest)) ->
  assoc_get "message" e = Some (PStr msg) ->
  make_intuit_request cfg query variables s
  = (Return (envelope ("HTTP Status Error: " ++ str_of_Z (status_code r)
                       ++ " - " ++ msg)), s').
Proof.
  intros H Hj He Hm. unfold make_intuit_request, try_except. rewrite H.
  unfold status_error_detail; run. rewrite Hj; simpl.
  unfold assoc_has. rewrite He; simpl. rewrite Hm; simpl. reflexivity.
Qed.

(** C10.  When the GraphQL endpoint answers outside 2xx with a JSON
    object whose [errors] is an empty array, or whose first error has no
    [message], the lookup fails inside the status-error handler and the
    [IndexError] or [KeyError] leaves [make_intuit_request]: no envelope is
    returned, generic or otherwise. *)
Theorem status_handler_lookup_error_escapes
  (query variables tok : pyval) (payload : dict) (s s1 : state)
  (r : response) (d : dict) :
  get_access_token cfg s = (Return tok, s1) ->
  build_payload cfg query variables s1 = (Return payload, s1) ->
  py_slice_ok query = Return tt ->
  let rq := POST (INTUIT_GRAPHQL_URL cfg) (graphql_headers tok)
                 (JsonBody (PDict payload)) in
  net (length (trace s1)) rq = Responded r ->
  is_success r = false ->
  json_loads (text r) = Some (PDict d) ->
  (assoc_get "errors" d = Some (PList []) ->
   make_intuit_request cfg query variables s = (Raise IndexError, sent rq s1))
  /\
  (forall e rest,
     assoc_get "errors" d = Some (PList (PDict e :: rest)) ->
     assoc_get "message" e = None ->
     make_intuit_request cfg query variables s = (Raise KeyError, sent rq s1)).
Proof.
  intros Htok Hpay Hslice rq Hnet Hbad Hj.
  pose proof (graphql_call_status_error _ _ _ _ _ _ _ Htok Hpay Hslice Hnet Hbad)
    as Hcall.
  fold rq in Hcall.
  split.
  - intros He. unfold make_intuit_request, try_except. rewrite Hcall.
    unfold status_error_detail; run. rewrite Hj; simpl.
    unfold assoc_has. rewrite He; simpl. reflexivity.
  - intros e rest He Hm. unfold make_intuit_request, try_except.
    rewrite Hcall.
    unfold status_error_detail; run. rewrite Hj; simpl.
    unfold assoc_has. rewrite He; simpl. rewrite Hm; simpl. reflexivity.
Qed.

(** Whatever [make_intuit_request] returns supports the [in] test of
    line 347, and the test holds only of a dict with an [errors] key. *)
Lemma make_intuit_request_result (query variables result : pyval)
  (s s' : state) :
  make_intuit_request cfg query variables s = (Return result, s') ->
  exists b, py_in "errors" result = Return b /\
            (b = true ->
             exists d, result = PDict d /\ assoc_has "errors" d = true).
Proof.
  unfold make_intuit_request, try_except.
  destruct (graphql_call cfg query variables s) as [[res|e] s1] eqn:Hcall.
  - intros [= <- <-]. revert Hcall. unfold graphql_call, bind.
    destruct (get_access_token cfg s) as [[tok|?] s2]; [|discriminate].
    destruct (build_payload cfg query variables s2) as [[p|?] s3];
      [|discriminate].
    unfold lift at 1. destruct (py_slice_ok query); [|discriminate].
    destruct (send _ s3) as [[resp|?] s4]; [|discriminate].
    destruct (raise_for_status resp s4) as [[?|?] s5]; [|discriminate].
    destruct (response_json resp s5) as [[v|?] s6]; [|discriminate].
    unfold lift at 1.
    destruct (py_in "errors" v) as [b|] eqn:Hin; [|discriminate].
    destruct b; run.
    + destruct (py_getitem v "errors") eqn:Hget; [|discriminate].
      intros [= <- _]. exists true. split; [assumption|]. intros _.
      destruct v; try discriminate Hget. exists d. split; [reflexivity|].
      simpl in Hin. injection Hin as Hin. exact Hin.
    + intros [= <- _]. exists false. split; [assumption|discriminate].
  - assert (He : forall m, exists b,
               py_in "errors" (envelope m) = Return b /\
               (b = true -> exists d, envelope m = PDict d /\
                                      assoc_has "errors" d = true)).
    { intros m. exists true. split; [reflexivity|]. intros _.
      eexists. split; reflexivity. }
    destruct e; unfold ret; try (intros [= <- _]; apply He).
    unfold bind.
    destruct (status_error_detail r s1) as [[x|?] ?]; [|discriminate].
    intros [= <- _]. apply He.
Qed.

End ApiClient.


(** ** Which requests a computation can send *)

Section Sends.
Context `{RT : PyRuntime} `{W : World}.
Variable cfg : config.
Variable P : request -> Prop.

Lemma sends_pure {A} (c : M A) :
  (forall s, snd (c s) = s) -> sends P c.
Proof.
  intros H s o s' Hc. exists []. rewrite app_nil_r.
  specialize (H s). rewrite Hc in H. simpl in H. subst. auto.
Qed.

Lemma sends_ret {A} (a : A) : sends P (ret a).
Proof. apply sends_pure. reflexivity. Qed.

Lemma sends_raise {A} (e : exn) : sends P (@raise A e).
Proof. apply sends_pure. reflexivity. Qed.

Lemma sends_lift {A} (o : outcome A) : sends P (lift o).
Proof. apply sends_pure. reflexivity. Qed.

Lemma sends_bind_ret {A B} (c : M A) (k : A -> M B) :
  sends P c -> (forall a, returns c a -> sends P (k a)) ->
  sends P (bind c k).
Proof.
  intros Hc Hk s o s'. unfold bind.
  destruct (c s) as [[a|e] s1] eqn:E; intros Hrun.
  - destruct (Hc _ _ _ E) as (n1 & T1 & F1).
    assert (R : returns c a) by (exists s, s1; exact E).
    destruct (Hk a R _ _ _ Hrun) as (n2 & T2 & F2).
    exists (n1 ++ n2)%list. split.
    + rewrite T2, T1, app_assoc. reflexivity.
    + apply Forall_app; auto.
  - injection Hrun as <- <-. eapply Hc; eauto.
Qed.

Lemma sends_bind {A B} (c : M A) (k : A -> M B) :
  sends P c -> (forall a, sends P (k a)) -> sends P (bind c k).
Proof. intros Hc Hk. apply sends_bind_ret; auto. Qed.

Lemma sends_try {A} (c : M A) (h : exn -> M A) :
  sends P c -> (forall e, sends P (h e)) -> sends P (try_except c h).
Proof.
  intros Hc Hh s o s'. unfold try_except.
  destruct (c s) as [[a|e] s1] eqn:E; intros Hrun.
  - injection Hrun as <- <-. eapply Hc; eauto.
  - destruct (Hc _ _ _ E) as (n1 & T1 & F1).
    destruct (Hh e _ _ _ Hrun) as (n2 & T2 & F2).
    exists (n1 ++ n2)%list. split.
    + rewrite T2, T1, app_assoc. reflexivity.
    + apply Forall_app; auto.
Qed.

Lemma sends_send (rq : request) : P rq -> sends P (send rq).
Proof.
  intros Hrq s o s'. unfold send.
  destruct (net _ _); intros [= <- <-]; exists [rq]; simpl; auto.
Qed.

Lemma sends_time_time : sends P time_time.
Proof. intros s o s' [= <- <-]. exists []. simpl. rewrite app_nil_r. auto. Qed.

Lemma sends_get_cache : sends P get_cache.
Proof. apply sends_pure. reflexivity. Qed.

Lemma sends_set_access_token (v : pyval) : sends P (set_access_token v).
Proof. intros s o s' [= <- <-]. exists []. simpl. rewrite app_nil_r. auto. Qed.

Lemma sends_set_expires_at (t : Z) : sends P (set_expires_at t).
Proof. intros s o s' [= <- <-]. exists []. simpl. rewrite app_nil_r. auto. Qed.

Lemma sends_raise_for_status (r : response) : sends P (raise_for_status r).
Proof.
  unfold raise_for_status. destruct (is_success r);
    [apply sends_ret|apply sends_raise].
Qed.

Lemma sends_response_json (r : response) : sends P (response_json r).
Proof.
  unfold response_json. destruct (json_loads _);
    [apply sends_ret|apply sends_raise].
Qed.

Ltac sends_step :=
  first
    [ apply sends_ret | apply sends_raise | apply sends_lift
    | apply sends_time_time | apply sends_get_cache
    | apply sends_set_access_token | apply sends_set_expires_at
    | apply sends_raise_for_status | apply sends_response_json
    | apply sends_bind; [|intros ?]
    | apply sends_try; [|intros ?]
    | match goal with
      | |- sends _ (if ?b then _ else _) => destruct b
      | |- sends _ (match ?x with _ => _ end) => destruct x
      end ].

Lemma sends_get_access_token :
  P (oauth_request cfg) -> sends P (get_access_token cfg).
Proof.
  intros Ho. unfold get_access_token.
  repeat (sends_step || (apply sends_send; exact Ho)).
Qed.

Lemma sends_status_error_detail (r : response) :
  sends P (status_error_detail r).
Proof. unfold status_error_detail. repeat sends_step. Qed.

Lemma sends_build_payload (query variables : pyval) :
  sends P (build_payload cfg query variables).
Proof. apply sends_pure. apply build_payload_pure. Qed.

Lemma sends_graphql_call (query variables : pyval) :
  P (oauth_request cfg) ->
  (forall tok payload,
     returns (build_payload cfg query variables) payload ->
     P (POST (INTUIT_GRAPHQL_URL cfg) (graphql_headers tok)
             (JsonBody (PDict payload)))) ->
  sends P (graphql_call cfg query variables).
Proof.
  intros Ho Hp. unfold graphql_call.
  apply sends_bind; [apply sends_get_access_token; exact Ho|intros tok].
  apply sends_bind_ret; [apply sends_build_payload|intros payload R].
  apply sends_bind; [apply sends_lift|intros _].
  apply sends_bind; [apply sends_send; auto|intros resp].
  repeat sends_step.
Qed.

Lemma sends_make_intuit_request (query variables : pyval) :
  P (oauth_request cfg) ->
  (forall tok payload,
     returns (build_payload cfg query variables) payload ->
     P (POST (INTUIT_GRAPHQL_URL cfg) (graphql_headers tok)
             (JsonBody (PDict payload)))) ->
  sends P (make_intuit_request cfg query variables).
Proof.
  intros Ho Hp. unfold make_intuit_request.
  apply sends_try; [apply sends_graphql_call; assumption|intros e].
  destruct e; try apply sends_ret.
  apply sends_bind; [apply sends_status_error_detail|intros; apply sends_ret].
Qed.

Lemma sends_rest_fallback (result : pyval) :
  P (oauth_request cfg) ->
  (forall tok, P (company_info_request cfg tok)) ->
  sends P (rest_fallback cfg result).
Proof.
  intros Ho Hg. unfold rest_fallback.
  apply sends_try; [|intros; apply sends_ret].
  apply sends_bind; [apply sends_get_access_token; exact Ho|intros tok].
  apply sends_bind; [apply sends_send; auto|intros resp].
  repeat sends_step.
Qed.

Lemma sends_inject_company (v : pyval) : sends P (inject_company cfg v).
Proof. unfold inject_company. repeat sends_step. Qed.

Lemma sends_mentions_company (v : pyval) : sends P (mentions_company v).
Proof. unfold mentions_company. repeat sends_step. Qed.

End Sends.


(** ** The tool entry point *)

Section Tool.
Context `{RT : PyRuntime} `{W : World}.
Variable cfg : config.

(** The variables the tool works on are the caller's: the variables of
    a wrapped JSON document are never taken, because line 321 has already
    replaced a missing mapping by an empty dict. *)
Lemma normalize_variables (query : string) (variables : option dict) :
  snd (normalize query (opt_dict variables)) = PDict (caller_dict variables).
Proof.
  assert (E : (if truthy (opt_dict variables) then opt_dict variables
               else PDict []) = PDict (caller_dict variables)).
  { destruct variables as [[|x d]|]; reflexivity. }
  unfold normalize. rewrite E.
  destruct (json_loads query) as [[]|]; try reflexivity.
  destruct (assoc_get "query" d); [|reflexivity].
  destruct (assoc_get "variables" d); reflexivity.
Qed.

(** A text that is not JSON, or is JSON without a [query] key, is the
    query as it stands. *)
Lemma normalize_raw (query : string) (variables : pyval) :
  (forall d q, json_loads query = Some (PDict d) ->
               assoc_get "query" d <> Some q) ->
  fst (normalize query variables) = PStr query.
Proof.
  intros H. unfold normalize.
  destruct (json_loads query) as [[]|]; try reflexivity.
  destruct (assoc_get "query" d) eqn:E; [|reflexivity].
  exfalso. eapply H; eauto.
Qed.

(** A wrapped document contributes its [query] member. *)
Lemma normalize_wrapped (query : string) (variables : pyval)
  (d : dict) (q : pyval) :
  json_loads query = Some (PDict d) -> assoc_get "query" d = Some q ->
  fst (normalize query variables) = q.
Proof. intros Hj Hq. unfold normalize. rewrite Hj, Hq. reflexivity. Qed.

Lemma inject_company_configured (c : string) (d : dict) (s : state) :
  INTUIT_COMPANY_ID cfg = Some c -> c <> "" ->
  inject_company cfg (PDict d) s = (Return (PDict (injected c d)), s).
Proof.
  intros Hc Hne. unfold inject_company, company_value, injected.
  rewrite Hc. simpl.
  destruct c; [congruence|]. simpl. run.
  destruct (assoc_has "realmId" d); reflexivity.
Qed.

Lemma injected_realm (c : string) (d : dict) :
  assoc_get "realmId" (injected c d)
  = Some (match assoc_get "realmId" d with Some v => v | None => PStr c end).
Proof.
  unfold injected, assoc_has.
  destruct (assoc_get "realmId" d) eqn:E; [exact E|].
  rewrite assoc_get_set. reflexivity.
Qed.

Lemma injected_frame (c k : string) (d : dict) :
  k <> "realmId" -> assoc_get k (injected c d) = assoc_get k d.
Proof.
  intros Hk. unfold injected. destruct (assoc_has "realmId" d); [reflexivity|].
  rewrite assoc_get_set.
  destruct (String.eqb_spec k "realmId"); [contradiction|reflexivity].
Qed.

Lemma company_truthy (c : string) :
  INTUIT_COMPANY_ID cfg = Some c -> c <> "" ->
  truthy (company_value cfg) = true.
Proof.
  intros Hc Hne. unfold company_value. rewrite Hc.
  destruct c; [congruence|reflexivity].
Qed.

Lemma build_payload_with_realm (query : pyval) (vs : dict) (s : state) :
  truthy (company_value cfg) = true ->
  assoc_has "realmId" vs = true ->
  build_payload cfg query (PDict vs) s
  = (Return [("query", query); ("variables", PDict vs)], s).
Proof.
  intros Hcv Hhas. unfold build_payload.
  assert (Ht : truthy (PDict vs) = true)
    by (destruct vs; [discriminate Hhas|reflexivity]).
  rewrite Ht, Hcv.
  change (assoc_set "variables" (PDict vs) [("query", query)])
    with [("query", query); ("variables", PDict vs)].
  change (assoc_has "variables" [("query", query); ("variables", PDict vs)])
    with true.
  change (py_getitem (PDict [("query", query); ("variables", PDict vs)])
            "variables") with (Return (PDict vs)).
  unfold bind, lift, ret, py_in. rewrite Hhas. reflexivity.
Qed.

Lemma build_payload_injected (c : string) (d : dict) (query : pyval)
  (payload : dict) :
  INTUIT_COMPANY_ID cfg = Some c -> c <> "" ->
  returns (build_payload cfg query (PDict (injected c d))) payload ->
  payload = [("query", query); ("variables", PDict (injected c d))].
Proof.
  intros Hc Hne (s & s' & Hrun).
  rewrite build_payload_with_realm in Hrun.
  - injection Hrun as <- _. reflexivity.
  - eapply company_truthy; eauto.
  - unfold assoc_has. rewrite injected_realm. reflexivity.
Qed.

(** Called directly with a non-empty mapping, [make_intuit_request]
    does the same injection itself (lines 136-139). *)
Lemma build_payload_injects (c : string) (query : pyval) (d : dict)
  (s : state) :
  INTUIT_COMPANY_ID cfg = Some c -> c <> "" -> d <> [] ->
  build_payload cfg query (PDict d) s
  = (Return [("query", query); ("variables", PDict (injected c d))], s).
Proof.
  intros Hc Hne Hd. unfold build_payload.
  rewrite (company_truthy c Hc Hne).
  assert (Ht : truthy (PDict d) = true) by (destruct d; [congruence|reflexivity]).
  rewrite Ht.
  change (assoc_set "variables" (PDict d) [("query", query)])
    with [("query", query); ("variables", PDict d)].
  change (assoc_has "variables" [("query", query); ("variables", PDict d)])
    with true.
  change (py_getitem (PDict [("query", query); ("variables", PDict d)])
            "variables") with (Return (PDict d)).
  unfold bind, lift, ret, py_in, injected, company_value. rewrite Hc.
  destruct (assoc_has "realmId" d); reflexivity.
Qed.

Lemma mentions_company_text (t : string) (s : state) :
  mentions_company (PStr t) s
  = (Return (query_text_mentions_company (PStr t)), s).
Proof.
  unfold mentions_company, query_text_mentions_company; run.
  destruct (contains "company" (lower t)); reflexivity.
Qed.

Lemma mentions_company_state (v : pyval) (s : state) :
  snd (mentions_company v s) = s.
Proof.
  unfold mentions_company; run.
  repeat (case_scrutinee; run; try reflexivity).
Qed.

(** What the dict literal of lines 369-378 evaluates to. *)
Lemma map_company_info_spec (rest_result : pyval) :
  map_company_info rest_result
  = match rest_result with
    | PDict d =>
        match assoc_get "CompanyInfo" d with
        | None => Return (company_object [])
        | Some (PDict info) => Return (company_object info)
        | Some _ => Raise AttributeError
        end
    | _ => Raise AttributeError
    end.
Proof.
  destruct rest_result; try reflexivity.
  unfold map_company_info, py_get.
  destruct (assoc_get "CompanyInfo" d) as [[]|]; reflexivity.
Qed.

(** C7.  For a tool call that reaches the GraphQL request and gets
    [result] back for the normalized query: unless [result] has an
    [errors] key, a company is configured and the lower-cased query text
    contains both ["company"] and ["companyname"], nothing more happens
    and [result] is serialized.  When all three hold the token provider
    is called again and, given a token, one GET goes to the company-info
    URL.  The result is replaced exactly when the answer has status 200
    and is a JSON object whose [CompanyInfo] is absent or an object: the
    replacement holds [companyName], [legalName], [companyAddr] (the
    members of [CompanyInfo], [None] where missing) and the provenance
    note.  Every other course (no token, transport failure, another
    status, a body that does not decode, is no object or has another kind
    of [CompanyInfo]) yields [result] as it was. *)
Theorem rest_fallback_policy
  (query : string) (variables : option dict) (s s1 : state)
  (pq pv pv' result : pyval) :
  loads_query query = Return tt ->
  normalize query (opt_dict variables) = (pq, pv) ->
  inject_company cfg pv s = (Return pv', s) ->
  make_intuit_request cfg pq pv' s = (Return result, s1) ->
  let run := intuit_execute_graphql cfg query variables s in
  (has_errors_key result = true <->
   exists d, result = PDict d /\ assoc_has "errors" d = true)
  /\
  (fallback_wanted cfg result pq = false ->
     snd run = s1 /\
     (forall t, pq = PStr t -> fst run = Return (json_dumps result)))
  /\
  (fallback_wanted cfg result pq = true ->
     match get_access_token cfg s1 with
     | (Raise _, s2) => run = (Return (json_dumps result), s2)
     | (Return tok, s2) =>
         let rq := company_info_request cfg tok in
         snd run = sent rq s2 /\
         fst run = Return (json_dumps
           match net (length (trace s2)) rq with
           | Responded r =>
               if status_code r =? 200 then
                 match json_loads (text r) with
                 | Some (PDict d) =>
                     match assoc_get "CompanyInfo" d with
                     | None => company_object []
                     | Some (PDict info) => company_object info
                     | Some _ => result
                     end
                 | _ => result
                 end
               else result
           | Failed _ => result
           end)
     end).
Proof.
  intros Hl Hn Hi Hm run.
  destruct (make_intuit_request_result _ _ _ _ _ _ Hm) as (b & Hb & Hkey).
  assert (Hrun : run =
            match (if b && truthy (company_value cfg) then
                     bind (mentions_company pq)
                       (fun applicable =>
                          if applicable then rest_fallback cfg result
                          else ret result)
                   else ret result) s1 with
            | (Return a, s') => (Return (json_dumps a), s')
            | (Raise e, s') => (Raise e, s')
            end).
  { subst run. unfold intuit_execute_graphql, execute.
    unfold bind at 1 2. unfold lift at 1. rewrite Hl, Hn.
    unfold bind at 1 2. rewrite Hi.
    unfold bind at 1. rewrite Hm.
    unfold bind at 1. unfold lift. rewrite Hb. reflexivity. }
  clearbody run.
  unfold fallback_wanted, has_errors_key. rewrite Hb.
  split; [|split].
  - split; [exact Hkey|].
    intros (d & -> & Hd). simpl in Hb. congruence.
  - intros Hw.
    destruct (b && truthy (company_value cfg)) eqn:Hbc; simpl in Hw.
    + unfold bind in Hrun.
      pose proof (mentions_company_state pq s1) as Hs.
      destruct (mentions_company pq s1) as [[a|e] s2] eqn:Hmc;
        simpl in Hs; subst s2.
      * assert (a = false) as ->.
        { destruct pq; try discriminate Hmc.
          rewrite mentions_company_text in Hmc.
          injection Hmc as <-. exact Hw. }
        rewrite Hrun. split; [reflexivity|]. intros; reflexivity.
      * rewrite Hrun. split; [reflexivity|].
        intros t ->. rewrite mentions_company_text in Hmc. discriminate.
    + rewrite Hrun. split; [reflexivity|]. intros; reflexivity.
  - intros Hw. apply andb_true_iff in Hw as [Hbc Hq].
    rewrite Hbc in Hrun.
    destruct pq; try discriminate Hq.
    unfold bind at 1 in Hrun. rewrite mentions_company_text, Hq in Hrun.
    unfold rest_fallback, try_except, bind in Hrun.
    destruct (get_access_token cfg s1) as [[tok|e] s2]; [|exact Hrun].
    unfold send in Hrun. unfold sent.
    destruct (net (length (trace s2)) (company_info_request cfg tok))
      as [r|m]; [|rewrite Hrun; split; reflexivity].
    destruct (status_code r =? 200); [|rewrite Hrun; split; reflexivity].
    unfold response_json in Hrun.
    destruct (json_loads (text r)) as [rest_result|];
      [|rewrite Hrun; split; reflexivity].
    unfold lift, ret in Hrun. simpl in Hrun.
    rewrite map_company_info_spec in Hrun.
    destruct rest_result; try (rewrite Hrun; split; reflexivity).
    destruct (assoc_get "CompanyInfo" d) as [[]|];
      rewrite Hrun; split; reflexivity.
Qed.

End Tool.


(** ** Start-up *)

Section Startup.
Context `{RT : PyRuntime} `{W : World}.

Lemma debug_line_is_not_error (label : string) (v : option string) (l : string) :
  debug_credential label v = Return l -> l <> msg_error /\ l <> msg_fatal.
Proof.
  destruct v; simpl; [|discriminate].
  intros [= <-]. split; discriminate.
Qed.

(** C9, as the code has it.  With any of the three credentials unset the
    module body raises [TypeError] in its debug prints: the process dies
    before the credential check, so neither the ERROR nor the FATAL line
    is written; nothing is served and nothing is sent. *)
Theorem unset_credential_crashes_before_the_check
  (env : string -> option string) (calls : list (string * option dict)) :
  env "INTUIT_CLIENT_ID" = None \/ env "INTUIT_CLIENT_SECRET" = None
  \/ env "INTUIT_REFRESH_TOKEN" = None ->
  let p := main env calls in
  status p = Crashed TypeError /\
  ~ In msg_error (stderr p) /\ ~ In msg_fatal (stderr p) /\
  replies p = [] /\ final p = initial_state.
Proof.
  intros H p. subst p. unfold main, import_module, load_config.
  cbn [INTUIT_CLIENT_ID INTUIT_CLIENT_SECRET INTUIT_REFRESH_TOKEN].
  destruct (debug_credential "Client ID" (env "INTUIT_CLIENT_ID"))
    as [l1|e1] eqn:E1.
  2:{ destruct (env "INTUIT_CLIENT_ID"); [discriminate|].
      injection E1 as <-. simpl. intuition. }
  destruct (debug_line_is_not_error _ _ _ E1) as [N1 N1'].
  destruct (debug_credential "Client Secret" (env "INTUIT_CLIENT_SECRET"))
    as [l2|e2] eqn:E2.
  2:{ destruct (env "INTUIT_CLIENT_SECRET"); [discriminate|].
      injection E2 as <-. simpl. intuition. }
  destruct (debug_line_is_not_error _ _ _ E2) as [N2 N2'].
  destruct (debug_credential "Refresh Token" (env "INTUIT_REFRESH_TOKEN"))
    as [l3|e3] eqn:E3.
  2:{ destruct (env "INTUIT_REFRESH_TOKEN"); [discriminate|].
      injection E3 as <-. simpl. intuition. }
  exfalso.
  destruct (env "INTUIT_CLIENT_ID"); [|discriminate].
  destruct (env "INTUIT_CLIENT_SECRET"); [|discriminate].
  destruct (env "INTUIT_REFRESH_TOKEN"); [|discriminate].
  destruct H as [H|[H|H]]; discriminate.
Qed.

(** X18.  With the three credentials set and one of them empty, the
    check is reached: both messages are written and the server is not
    run. *)
Lemma empty_credential_is_refused
  (env : string -> option string) (calls : list (string * option dict))
  (a b c : string) :
  env "INTUIT_CLIENT_ID" = Some a ->
  env "INTUIT_CLIENT_SECRET" = Some b ->
  env "INTUIT_REFRESH_TOKEN" = Some c ->
  a = "" \/ b = "" \/ c = "" ->
  let p := main env calls in
  status p = Refused /\
  In msg_error (stderr p) /\ In msg_fatal (stderr p) /\
  replies p = [] /\ final p = initial_state.
Proof.
  intros Ha Hb Hc Hempty p. subst p.
  unfold main, import_module, load_config, credentials_present.
  cbn [INTUIT_CLIENT_ID INTUIT_CLIENT_SECRET INTUIT_REFRESH_TOKEN].
  rewrite Ha, Hb, Hc.
  cbn [debug_credential opt_truthy INTUIT_CLIENT_ID INTUIT_CLIENT_SECRET
       INTUIT_REFRESH_TOKEN].
  assert (E : str_nonempty a && str_nonempty b && str_nonempty c = false).
  { destruct Hempty as [ -> | [ -> | -> ] ]; simpl.
    - reflexivity.
    - apply andb_false_iff. left. apply andb_false_r.
    - apply andb_false_r. }
  rewrite E.
  cbn [negb stderr status replies final opt_truthy INTUIT_CLIENT_ID
       INTUIT_CLIENT_SECRET INTUIT_REFRESH_TOKEN].
  rewrite ?E. cbn [negb stderr status replies final].
  repeat split.
  - apply in_or_app. left. apply in_or_app. right. left. reflexivity.
  - apply in_or_app. right. left. reflexivity.
Qed.

End Startup.


(** ** Scenarios *)

Module Scenario.
Import Sample.

(** C1, as worded, fails here: the cache is empty, so the call is on the
    "otherwise" side, yet with the client secret set to the empty string
    it raises without sending the OAuth request. *)
Lemma missing_credential_sends_nothing :
  let r := @get_access_token runtime (world 1000 []) cfg_empty_secret
             initial_state in
  access_token (token_cache initial_state) = PNone /\
  fst r = Raise missing_credentials /\
  trace (snd r) = [] /\
  trace (snd r) <> (trace initial_state ++ [oauth_request cfg_empty_secret])%list.
Proof. vm_compute. repeat split. discriminate. Qed.

(** The refresh path of C1 can succeed: token and expiry are stored. *)
Example refresh_stores_token_and_expiry :
  @get_access_token runtime happy_world (cfg None) initial_state
  = (Return (PStr "tok"),
     {| token_cache := {| access_token := PStr "tok"; expires_at := 4600 |};
        clock_reads := 1;
        trace := [oauth_request (cfg None)] |}).
Proof. vm_compute. reflexivity. Qed.

(** A cached token that is good for more than a minute is reused. *)
Example cached_token_is_reused :
  @get_access_token runtime (world 1000 []) (cfg None) (cached 1061)
  = (Return (PStr "cached"),
     {| token_cache := {| access_token := PStr "cached"; expires_at := 1061 |};
        clock_reads := 1;
        trace := [] |}).
Proof. vm_compute. reflexivity. Qed.

(** C6, as worded, fails here: the OAuth endpoint grants 30 seconds, the
    token is returned all the same, and it expires at 1030, not after
    1060. *)
Lemma short_lived_token_is_returned :
  let r := @get_access_token runtime (world 1000 [ok doc_token_30]) (cfg None)
             initial_state in
  fst r = Return (PStr "tok") /\
  expires_at (token_cache (snd r)) = 1030 /\
  ~ expires_at (token_cache (snd r)) > 1000 + 60.
Proof. vm_compute. repeat split. discriminate. Qed.

Lemma returned_token_expiry_witness :
  let r := @get_access_token runtime happy_world (cfg None) initial_state in
  r = (Return (PStr "tok"), snd r) /\
  access_token (token_cache (snd r)) = PStr "tok".
Proof.
  split; [vm_compute; reflexivity|].
  apply (@returned_token_expiry runtime happy_world (cfg None)
           initial_state _ (PStr "tok")).
  vm_compute. reflexivity.
Defined.

(** C5 at the failing input: the token response has no [expires_in].
    Line 104 has stored the token when line 105 raises, so the failed
    exchange leaves a new token beside the old expiry. *)
Theorem failed_exchange_leaves_partial_update :
  let r := @get_access_token runtime (world 1000 [ok doc_token_only]) (cfg None)
             initial_state in
  token_cache initial_state = {| access_token := PNone; expires_at := 0 |} /\
  fst r = Raise KeyError /\
  token_cache (snd r) = {| access_token := PStr "tok"; expires_at := 0 |}.
Proof. vm_compute. repeat split. Qed.

(** C2 at the failing input: the document carries its own variables,
    the caller passes none, and the request goes out without any. *)
Theorem wrapped_variables_are_not_sent :
  @json_loads runtime doc_wrapped
  = Some (PDict [("query", PStr "{ a }");
                 ("variables", PDict [("x", PInt 1)])]) /\
  trace (snd (@intuit_execute_graphql runtime happy_world (cfg None)
                doc_wrapped None initial_state))
  = [oauth_request (cfg None);
     POST (INTUIT_GRAPHQL_URL (cfg None))
          (@graphql_headers runtime (PStr "tok"))
          (JsonBody (PDict [("query", PStr "{ a }")]))].
Proof. vm_compute. split; reflexivity. Qed.

(** The raw-text side of C2 holds: the text is the query that is sent. *)
Example raw_query_is_sent_as_it_is :
  trace (snd (@intuit_execute_graphql runtime happy_world (cfg None)
                company_query None initial_state))
  = [oauth_request (cfg None);
     POST (INTUIT_GRAPHQL_URL (cfg None))
          (@graphql_headers runtime (PStr "tok"))
          (JsonBody (PDict [("query", PStr company_query)]))].
Proof. vm_compute. reflexivity. Qed.

(** C3 at the failing input: the wrapped query is the number 5.  The
    request fails inside [make_intuit_request] and comes back as an
    envelope; with a company configured line 352 then calls [.lower()] on
    the number, outside any [try]. *)
Theorem non_text_query_raises :
  @json_loads runtime doc_query_5 = Some (PDict [("query", PInt 5)]) /\
  fst (@intuit_execute_graphql runtime happy_world (cfg (Some "42"))
         doc_query_5 None initial_state)
  = Raise AttributeError.
Proof. vm_compute. split; reflexivity. Qed.

(** C4 at the failing input: HTTP 400 with body [{"errors": []}]. *)
Theorem empty_errors_array_raises :
  @json_loads runtime doc_no_errors = Some (PDict [("errors", PList [])]) /\
  fst (@make_intuit_request runtime (rejecting_world doc_no_errors)
         (cfg None) (PStr company_query) (PDict []) initial_state)
  = Raise IndexError.
Proof. vm_compute. split; reflexivity. Qed.

(** The scenario of C4 that holds: the message of the remote error is
    quoted in the envelope. *)
Example bad_field_is_reported :
  fst (@make_intuit_request runtime (rejecting_world doc_bad_field)
         (cfg None) (PStr company_query) (PDict []) initial_state)
  = Return (envelope "HTTP Status Error: 400 - Bad field").
Proof. vm_compute. reflexivity. Qed.

Example transport_failure_is_reported :
  fst (@make_intuit_request runtime fallback_world
         (cfg None) (PStr company_query) (PDict []) initial_state)
  = Return (envelope "HTTP Request Error connecting to Intuit: boom").
Proof. vm_compute. reflexivity. Qed.

Lemma status_handler_lookup_error_escapes_witness :
  fst (@make_intuit_request runtime (rejecting_world doc_no_errors)
         (cfg None) (PStr company_query) (PDict []) initial_state)
  = Raise IndexError.
Proof.
  pose proof (@status_handler_lookup_error_escapes runtime
                (rejecting_world doc_no_errors) (cfg None)
                (PStr company_query) (PDict []) (PStr "tok")
                [("query", PStr company_query)] initial_state
                (snd (@get_access_token runtime
                        (rejecting_world doc_no_errors) (cfg None)
                        initial_state))
                {| status_code := 400; text := doc_no_errors |}
                [("errors", PList [])]
                eq_refl eq_refl eq_refl eq_refl eq_refl eq_refl) as [H _].
  rewrite (H eq_refl). reflexivity.
Defined.

(** The fallback scenario of the specification. *)
Lemma rest_fallback_policy_witness :
  fst (@intuit_execute_graphql runtime fallback_world (cfg (Some "42"))
         company_query None initial_state)
  = Return (@json_dumps runtime
      (PDict [("data", PDict [("company", PDict
         [("companyName", PStr "Acme");
          ("legalName", PNone);
          ("companyAddr", PNone);
          ("note", PStr fallback_note)])])])).
Proof.
  pose (r := @make_intuit_request runtime fallback_world (cfg (Some "42"))
               (PStr company_query) (PDict [("realmId", PStr "42")])
               initial_state).
  pose proof (@rest_fallback_policy runtime fallback_world (cfg (Some "42"))
                company_query None initial_state (snd r)
                (PStr company_query) (PDict [])
                (PDict [("realmId", PStr "42")])
                (envelope "HTTP Request Error connecting to Intuit: boom")
                eq_refl eq_refl eq_refl eq_refl) as [_ [_ H]].
  specialize (H eq_refl).
  vm_compute in H. destruct H as [_ H]. vm_compute. exact H.
Defined.

(** C8 at the failing input: the caller supplies [realmId] and [x] as
    the variables of a wrapped document and passes no variables argument.
    The variables of the document are never taken (the slip of C2), so
    the request carries the configured company as [realmId], not the
    caller's ["7"], and [x] is not forwarded. *)
Theorem wrapped_realm_id_is_replaced :
  @json_loads Fixture.runtime Fixture.doc_wrapped_realm
  = Some (PDict [("query", PStr "{ a }");
                 ("variables", PDict [("realmId", PStr "7");
                                      ("x", PInt 1)])]) /\
  trace (snd (@intuit_execute_graphql Fixture.runtime happy_world
                (cfg (Some "42")) Fixture.doc_wrapped_realm None
                initial_state))
  = [oauth_request (cfg (Some "42"));
     POST (INTUIT_GRAPHQL_URL (cfg (Some "42")))
          (@graphql_headers Fixture.runtime (PStr "tok"))
          (JsonBody (PDict [("query", PStr "{ a }");
                            ("variables",
                             PDict [("realmId", PStr "42")])]))].
Proof. vm_compute. split; reflexivity. Qed.

(** Passed as the variables argument, the caller's variable is sent
    and the company is added. *)
Example company_is_appended_to_variables :
  trace (snd (@intuit_execute_graphql runtime happy_world (cfg (Some "42"))
                company_query (Some [("first", PInt 10)]) initial_state))
  = [oauth_request (cfg (Some "42"));
     POST (INTUIT_GRAPHQL_URL (cfg (Some "42")))
          (@graphql_headers runtime (PStr "tok"))
          (JsonBody (PDict [("query", PStr company_query);
                            ("variables", PDict [("first", PInt 10);
                                                 ("realmId", PStr "42")])]))].
Proof. vm_compute. reflexivity. Qed.

Lemma unset_credential_crashes_before_the_check_witness :
  status (@main runtime (world 1000 []) env_unset [(company_query, None)])
  = Crashed TypeError.
Proof.
  apply (@unset_credential_crashes_before_the_check runtime (world 1000 [])
           env_unset [(company_query, None)]).
  left. reflexivity.
Defined.

(** A credential that is set but empty reaches the check. *)
Example empty_secret_is_refused :
  status (@main runtime (world 1000 []) env_empty_secret
            [(company_query, None)]) = Refused.
Proof. vm_compute. reflexivity. Qed.

End Scenario.


(** ** Further properties of the token provider *)

Section MoreTokenProvider.
Context `{RT : PyRuntime} `{W : World}.
Variable cfg : config.

(** X1.  A non-empty token string that a call has returned is returned
    again by the next call, without any request and without touching the
    cache, when the next clock reading is still more than 60 seconds short
    of the expiry now in the cache. *)
Theorem returned_token_is_reused (s s1 : state) (t : string) :
  get_access_token cfg s = (Return (PStr t), s1) ->
  t <> "" ->
  clock (clock_reads s1) + 60 < expires_at (token_cache s1) ->
  get_access_token cfg s1 = (Return (PStr t), tick s1).
Proof.
  intros Hrun Hne Hlt.
  assert (Htok : access_token (token_cache s1) = PStr t).
  { destruct (get_access_token_returns _ _ _ _ Hrun)
      as [(_ & E & Hc & _)|(_ & r & d & _ & _ & _ & Hc & _)]; rewrite Hc.
    - symmetry. exact E.
    - reflexivity. }
  unfold get_access_token; run. unfold cache_valid. rewrite Htok.
  apply Z.ltb_lt in Hlt. rewrite Hlt.
  destruct t; [congruence|]. reflexivity.
Qed.

(** X2.  When a refresh is due and the credentials are set, an exchange
    that fails before a token has been read leaves the cache as it was:
    a transport failure, a status outside 2xx, a body that does not
    decode ([JSONDecodeError] for a malformed one, the decoder's own
    exception otherwise) and a JSON object without [access_token] each
    raise their own exception after the one request. *)
Theorem failed_exchange_keeps_cache (s : state) :
  cache_valid (token_cache s) (clock (clock_reads s)) = false ->
  credentials_present cfg = true ->
  let reply := net (length (trace s)) (oauth_request cfg) in
  let s' := sent (oauth_request cfg) (tick s) in
  (forall m, reply = Failed m ->
     get_access_token cfg s = (Raise (RequestError m), s')) /\
  (forall r, reply = Responded r -> is_success r = false ->
     get_access_token cfg s = (Raise (HTTPStatusError r), s')) /\
  (forall r, reply = Responded r -> is_success r = true ->
     json_loads (text r) = None ->
     get_access_token cfg s
     = (Raise (decode_exn (json_failure (text r))), s') /\
     (json_failure (text r) = Malformed ->
      get_access_token cfg s = (Raise JSONDecodeError, s'))) /\
  (forall r d, reply = Responded r -> is_success r = true ->
     json_loads (text r) = Some (PDict d) ->
     assoc_get "access_token" d = None ->
     get_access_token cfg s = (Raise KeyError, s')).
Proof.
  intros Hv Hc reply s'. subst reply s'.
  unfold get_access_token; run. rewrite Hv, Hc; simpl.
  split; [|split; [|split]].
  - intros m ->. reflexivity.
  - intros r -> ->. reflexivity.
  - intros r -> -> ->. split; [reflexivity|].
    intros ->. reflexivity.
  - intros r d -> -> -> Hd. simpl. rewrite Hd. reflexivity.
Qed.

(** The requests of one call: none, or the token exchange. *)
Lemma get_access_token_trace (s : state) :
  exists a,
    trace (snd (get_access_token cfg s)) = (trace s ++ a)%list /\
    at_most_one (eq (oauth_request cfg)) a.
Proof.
  unfold get_access_token; run.
  destruct (cache_valid _ _).
  { exists []. rewrite app_nil_r. split; [|left; reflexivity].
    destruct (py_slice_ok _); reflexivity. }
  destruct (credentials_present cfg); simpl.
  2:{ exists []. rewrite app_nil_r. split; [reflexivity|left; reflexivity]. }
  exists [oauth_request cfg].
  split; [|right; eexists; split; reflexivity].
  repeat (case_scrutinee; run; try reflexivity).
Qed.

(** Whatever a call does, the token it returns is the cached one. *)
Lemma returned_token_is_cached (s s1 : state) (tok : pyval) :
  get_access_token cfg s = (Return tok, s1) ->
  access_token (token_cache s1) = tok.
Proof.
  intros Hrun.
  destruct (get_access_token_returns _ _ _ _ Hrun)
    as [(_ & E & Hc & _)|(_ & r & d & _ & _ & _ & Hc & _)]; rewrite Hc.
  - symmetry. exact E.
  - reflexivity.
Qed.

End MoreTokenProvider.


(** ** Further properties of the API client *)

Lemma py_in_raises (k : string) (v : pyval) (e : exn) :
  py_in k v = Raise e -> e = TypeError.
Proof. destruct v; simpl; congruence. Qed.

Lemma py_getitem_raises (v : pyval) (k : string) (e : exn) :
  py_getitem v k = Raise e -> e = KeyError \/ e = TypeError.
Proof.
  destruct v; simpl; try (intros [= <-]; auto).
  destruct (assoc_get k d); [discriminate|]. intros [= <-]; auto.
Qed.

Lemma py_first_raises (v : pyval) (e : exn) :
  py_first v = Raise e -> e = IndexError \/ e = KeyError \/ e = TypeError.
Proof.
  destruct v as [| | |[|]|[|]|]; simpl; try discriminate;
    intros [= <-]; auto.
Qed.

Lemma take_chars_count (n : nat) (s : string) :
  (char_count (take_chars n s) <= n)%nat.
Proof.
  revert n. induction s as [|c s IH]; intros n; simpl; [lia|].
  destruct (is_continuation c) eqn:E; simpl.
  - rewrite E. apply IH.
  - destruct n as [|n]; simpl; [lia|].
    rewrite E. specialize (IH n). lia.
Qed.

Ltac exn_kind :=
  repeat match goal with
  | H : py_in _ _ = Raise _ |- _ => apply py_in_raises in H; subst
  | H : py_getitem _ _ = Raise _ |- _ =>
      apply py_getitem_raises in H; destruct H; subst
  | H : py_first _ = Raise _ |- _ =>
      apply py_first_raises in H; destruct H as [|[|]]; subst
  end.

Section MoreApiClient.
Context `{RT : PyRuntime} `{W : World}.
Variable cfg : config.

Lemma status_error_detail_pure (r : response) (s : state) :
  snd (status_error_detail r s) = s.
Proof.
  unfold status_error_detail; run.
  repeat (case_scrutinee; run; try reflexivity).
Qed.

(** The status handler fails with a lookup error on a decoded body, or
    with the exception of a decoder that failed otherwise than on a
    malformed text. *)
Lemma status_error_detail_raises (r : response) (s s' : state) (e : exn) :
  status_error_detail r s = (Raise e, s') ->
  s' = s /\
  ((exists v, json_loads (text r) = Some v /\
              (e = TypeError \/ e = KeyError \/ e = IndexError))
   \/
   (json_loads (text r) = None /\
    json_failure (text r) <> Malformed /\
    e = decode_exn (json_failure (text r)))).
Proof.
  intros H. pose proof (status_error_detail_pure r s) as Hs.
  rewrite H in Hs. simpl in Hs. split; [exact Hs|]. clear Hs.
  revert H. unfold status_error_detail; run.
  destruct (json_loads (text r)) as [v|]; simpl.
  - intros H. left. exists v. split; [reflexivity|]. revert H.
    repeat (case_scrutinee; run; try discriminate);
      intros [= <- _]; exn_kind; auto.
  - intros H. right. split; [reflexivity|].
    destruct (json_failure (text r)); simpl in H; try discriminate;
      injection H as <- _; (split; [discriminate|reflexivity]).
Qed.

(** Once a token is there and the payload is built, the GraphQL request
    is sent, and nothing else happens to the state. *)
Lemma graphql_call_sends
  (query variables tok : pyval) (payload : dict) (s s1 : state) :
  get_access_token cfg s = (Return tok, s1) ->
  build_payload cfg query variables s1 = (Return payload, s1) ->
  py_slice_ok query = Return tt ->
  snd (graphql_call cfg query variables s)
  = sent (POST (INTUIT_GRAPHQL_URL cfg) (graphql_headers tok)
               (JsonBody (PDict payload))) s1.
Proof.
  intros Ht Hp Hs. unfold graphql_call, bind. rewrite Ht, Hp.
  unfold lift at 1. rewrite Hs. run. unfold sent.
  repeat (case_scrutinee; run); reflexivity.
Qed.

Lemma make_intuit_request_sends
  (query variables tok : pyval) (payload : dict) (s s1 : state) :
  get_access_token cfg s = (Return tok, s1) ->
  build_payload cfg query variables s1 = (Return payload, s1) ->
  py_slice_ok query = Return tt ->
  snd (make_intuit_request cfg query variables s)
  = sent (POST (INTUIT_GRAPHQL_URL cfg) (graphql_headers tok)
               (JsonBody (PDict payload))) s1.
Proof.
  intros Ht Hp Hs.
  pose proof (graphql_call_sends _ _ _ _ _ _ Ht Hp Hs) as H.
  unfold make_intuit_request, try_except.
  destruct (graphql_call cfg query variables s) as [[res|e] s2];
    simpl in H; subst s2; [reflexivity|].
  destruct e; try reflexivity.
  unfold bind.
  match goal with
  | |- context [status_error_detail ?r ?st] =>
      pose proof (status_error_detail_pure r st) as Hd;
      destruct (status_error_detail r st) as [[x|e] s3]
  end; simpl in Hd; subst s3; reflexivity.
Qed.

(** The requests of the [try] body: the token exchange at most once,
    then the GraphQL request at most once, authorized with the token the
    provider returned to this call. *)
Lemma graphql_call_shape (query variables : pyval) (s s' : state)
  (o : outcome pyval) :
  graphql_call cfg query variables s = (o, s') ->
  exists a b,
    trace s' = (trace s ++ a ++ b)%list /\
    at_most_one (eq (oauth_request cfg)) a /\
    at_most_one (fun rq => exists tok s1,
                   get_access_token cfg s = (Return tok, s1) /\
                   is_graphql_post cfg tok rq) b.
Proof.
  unfold graphql_call, bind.
  destruct (get_access_token_trace cfg s) as (a & Ta & Ha).
  destruct (get_access_token cfg s) as [[tok|e] s1] eqn:Ht; simpl in Ta.
  2:{ intros [= _ <-]. exists a, []. rewrite app_nil_r.
      repeat split; [assumption..|left; reflexivity]. }
  pose proof (build_payload_pure cfg query variables s1) as Hp.
  destruct (build_payload cfg query variables s1) as [[payload|e] s2];
    simpl in Hp; subst s2.
  2:{ intros [= _ <-]. exists a, []. rewrite app_nil_r.
      repeat split; [assumption..|left; reflexivity]. }
  unfold lift at 1.
  destruct (py_slice_ok query).
  2:{ intros [= _ <-]. exists a, []. rewrite app_nil_r.
      repeat split; [assumption..|left; reflexivity]. }
  set (rq := POST (INTUIT_GRAPHQL_URL cfg) (graphql_headers tok)
                  (JsonBody (PDict payload))).
  intros Hrun.
  assert (E : s' = sent rq s1).
  { revert Hrun. run. unfold sent.
    repeat (case_scrutinee; run); intros [= _ <-]; reflexivity. }
  subst s'.
  exists a, [rq]. unfold sent at 1; simpl. rewrite Ta, app_assoc.
  split; [reflexivity|].
  split; [assumption|]. right. exists rq. split; [reflexivity|].
  exists tok, s1. split; [reflexivity|]. exists payload. reflexivity.
Qed.

Lemma make_intuit_request_shape (query variables : pyval) (s s' : state)
  (o : outcome pyval) :
  make_intuit_request cfg query variables s = (o, s') ->
  exists a b,
    trace s' = (trace s ++ a ++ b)%list /\
    at_most_one (eq (oauth_request cfg)) a /\
    at_most_one (fun rq => exists tok s1,
                   get_access_token cfg s = (Return tok, s1) /\
                   is_graphql_post cfg tok rq) b.
Proof.
  unfold make_intuit_request, try_except.
  destruct (graphql_call cfg query variables s) as [[res|e] s1] eqn:Hc.
  - intros [= _ <-]. eapply graphql_call_shape; eauto.
  - pose proof (graphql_call_shape _ _ _ _ _ Hc) as H.
    destruct e; try (intros [= _ <-]; exact H).
    unfold bind. pose proof (status_error_detail_pure r s1) as Hp.
    destruct (status_error_detail r s1) as [[x|e] s2]; simpl in Hp; subst s2;
      intros [= _ <-]; exact H.
Qed.

(** X3.  One call of [make_intuit_request] sends at most two requests.
    A JSON request among them goes to the GraphQL URL and is authorized
    with the token that [get_access_token] returned to this call. *)
Theorem make_intuit_request_requests (query variables : pyval) (s : state) :
  let s' := snd (make_intuit_request cfg query variables s) in
  exists new,
    trace s' = (trace s ++ new)%list /\
    (length new <= 2)%nat /\
    forall url headers payload,
      In (POST url headers (JsonBody payload)) new ->
      url = INTUIT_GRAPHQL_URL cfg /\
      exists tok s1,
        get_access_token cfg s = (Return tok, s1) /\
        headers = graphql_headers tok.
Proof.
  cbv zeta.
  destruct (make_intuit_request cfg query variables s) as [o s'] eqn:Hrun.
  destruct (make_intuit_request_shape _ _ _ _ _ Hrun)
    as (a & b & T & Ha & Hb).
  simpl. exists (a ++ b)%list. split; [exact T|]. split.
  - rewrite length_app.
    destruct Ha as [->|(x & -> & _)], Hb as [->|(y & -> & _)]; simpl; lia.
  - intros url headers payload Hin. apply in_app_or in Hin as [Hin|Hin].
    + destruct Ha as [->|(x & -> & <-)]; simpl in Hin; [contradiction|].
      destruct Hin as [Hin|[]]. discriminate Hin.
    + destruct Hb as [->|(y & -> & tok & s1 & Ht & p & ->)];
        simpl in Hin; [contradiction|].
      destruct Hin as [Hin|[]]. injection Hin as <- <- _.
      split; [reflexivity|]. exists tok, s1. split; [exact Ht|reflexivity].
Qed.

(** X4.  A 2xx answer whose body decodes to a JSON object is returned
    as decoded, whether or not it has an [errors] key: errors reported by
    GraphQL stay in the result. *)
Theorem success_body_is_returned
  (query variables tok : pyval) (payload : dict) (s s1 : state)
  (r : response) (d : dict) :
  get_access_token cfg s = (Return tok, s1) ->
  build_payload cfg query variables s1 = (Return payload, s1) ->
  py_slice_ok query = Return tt ->
  let rq := POST (INTUIT_GRAPHQL_URL cfg) (graphql_headers tok)
                 (JsonBody (PDict payload)) in
  net (length (trace s1)) rq = Responded r ->
  is_success r = true ->
  json_loads (text r) = Some (PDict d) ->
  make_intuit_request cfg query variables s = (Return (PDict d), sent rq s1).
Proof.
  intros Htok Hpay Hslice rq Hnet Hok Hj.
  unfold make_intuit_request, try_except, graphql_call, bind.
  rewrite Htok, Hpay. unfold lift at 1. rewrite Hslice.
  unfold send. fold rq. rewrite Hnet.
  unfold raise_for_status. rewrite Hok. unfold ret at 1.
  unfold response_json. rewrite Hj. unfold ret at 1.
  unfold lift, py_in, py_getitem, assoc_has.
  destruct (assoc_get "errors" d); reflexivity.
Qed.

(** X5.  What the status handler reports when the body has no
    [errors]: the [error.message] of an OAuth-style object, and otherwise
    (a malformed body, for which the decoder raises [JSONDecodeError], or
    an object with neither key) the first 200 characters of the body at
    most. *)
Theorem status_error_messages
  (query variables : pyval) (s s' : state) (r : response) :
  graphql_call cfg query variables s = (Raise (HTTPStatusError r), s') ->
  let head := "HTTP Status Error: " ++ str_of_Z (status_code r) in
  let raw := envelope (head ++ " - Response: " ++ take_chars 200 (text r)) in
  (char_count (take_chars 200 (text r)) <= 200)%nat /\
  (json_loads (text r) = None -> json_failure (text r) = Malformed ->
   make_intuit_request cfg query variables s = (Return raw, s')) /\
  (forall d,
     json_loads (text r) = Some (PDict d) ->
     assoc_get "errors" d = None -> assoc_get "error" d = None ->
     make_intuit_request cfg query variables s = (Return raw, s')) /\
  (forall d e m,
     json_loads (text r) = Some (PDict d) ->
     assoc_get "errors" d = None ->
     assoc_get "error" d = Some (PDict e) ->
     assoc_get "message" e = Some (PStr m) ->
     make_intuit_request cfg query variables s
     = (Return (envelope (head ++ " - " ++ m)), s')).
Proof.
  intros Hcall head raw. subst head raw.
  split; [apply take_chars_count|].
  unfold make_intuit_request, try_except. rewrite Hcall.
  unfold status_error_detail; run.
  split; [|split].
  - intros -> ->. reflexivity.
  - intros d -> He1 He2. simpl. unfold assoc_has. rewrite He1, He2.
    reflexivity.
  - intros d e m -> He1 He2 Hm. simpl. unfold assoc_has.
    rewrite He1, He2. simpl. unfold assoc_has. rewrite Hm. simpl.
    rewrite ?Hm. reflexivity.
Qed.

(** X6.  [make_intuit_request] raises in one place only, the status
    handler: the [try] body raised an [HTTPStatusError], and then either
    the body decoded and a lookup failed ([TypeError], [KeyError] or
    [IndexError]), or [e.response.json()] failed otherwise than with the
    [JSONDecodeError] the handler catches ([ValueError],
    [RecursionError] or [UnicodeDecodeError]). *)
Theorem make_intuit_request_raises_only_in_status_handler
  (query variables : pyval) (s s' : state) (e : exn) :
  make_intuit_request cfg query variables s = (Raise e, s') ->
  exists r,
    graphql_call cfg query variables s = (Raise (HTTPStatusError r), s') /\
    ((exists v, json_loads (text r) = Some v /\
                (e = TypeError \/ e = KeyError \/ e = IndexError))
     \/
     (json_loads (text r) = None /\
      e = decode_exn (json_failure (text r)) /\
      (e = ValueError \/ e = RecursionError \/ e = UnicodeDecodeError))).
Proof.
  unfold make_intuit_request, try_except.
  destruct (graphql_call cfg query variables s) as [[res|e0] s1];
    [discriminate|].
  destruct e0; try discriminate.
  unfold bind.
  destruct (status_error_detail r s1) as [[x|e1] s2] eqn:Hd; [discriminate|].
  intros [= <- <-].
  destruct (status_error_detail_raises _ _ _ _ Hd)
    as (-> & [(v & Hj & He)|(Hj & Hf & He)]).
  - exists r. split; [reflexivity|]. left. eauto.
  - exists r. split; [reflexivity|]. right.
    split; [assumption|]. split; [assumption|]. subst e1.
    destruct (json_failure (text r)); simpl; auto. congruence.
Qed.

(** X7.  With a refresh due and a credential missing, the request is
    not attempted: the caller gets the generic envelope naming the missing
    credentials, and nothing is sent. *)
Theorem missing_credentials_are_reported
  (query variables : pyval) (s : state) :
  cache_valid (token_cache s) (clock (clock_reads s)) = false ->
  credentials_present cfg = false ->
  make_intuit_request cfg query variables s
  = (Return missing_credentials_envelope, tick s).
Proof.
  intros Hv Hc.
  unfold make_intuit_request, try_except, graphql_call, bind at 1.
  unfold get_access_token; run. rewrite Hv, Hc. reflexivity.
Qed.

(** X8.  Called with a dict of variables and a company configured,
    [make_intuit_request] adds the company to a non-empty dict that has no
    [realmId]; an empty dict is dropped, so that request carries no
    variables and no company at all. *)
Theorem direct_call_payload
  (c : string) (query : pyval) (d : dict) (s : state) :
  INTUIT_COMPANY_ID cfg = Some c -> c <> "" ->
  let s' := snd (make_intuit_request cfg query (PDict d) s) in
  exists new,
    trace s' = (trace s ++ new)%list /\
    Forall (fun rq => forall url headers payload,
              rq = POST url headers (JsonBody payload) ->
              payload = PDict (("query", query) ::
                               match d with
                               | [] => []
                               | _ => [("variables", PDict (injected c d))]
                               end))
           new.
Proof.
  intros Hc Hne. cbv zeta.
  set (P := fun rq : request => _).
  assert (S : sends P (make_intuit_request cfg query (PDict d))).
  { apply sends_make_intuit_request.
    - subst P; simpl; discriminate.
    - intros tok payload (s0 & s0' & R). subst P. simpl.
      intros url headers p [= _ _ <-]. f_equal.
      destruct d as [|kv d'].
      + revert R. unfold build_payload. simpl.
        rewrite andb_false_r. intros [= <- _]. reflexivity.
      + rewrite (build_payload_injects cfg c) in R; try assumption;
          [|discriminate].
        injection R as <- _. reflexivity. }
  destruct (make_intuit_request cfg query (PDict d) s) as [o s'] eqn:E.
  exact (S _ _ _ E).
Qed.

End MoreApiClient.


(** ** Further properties of the tool entry point *)

Lemma prefix_app_l (a b s : string) :
  prefix (a ++ b) s = true -> prefix a s = true.
Proof.
  revert s. induction a as [|c a IH]; intros s.
  - destruct s; reflexivity.
  - destruct s as [|c' s]; [discriminate|].
    change (prefix (String c a ++ b) (String c' s))
      with (if ascii_dec c c' then prefix (a ++ b) s else false).
    change (prefix (String c a) (String c' s))
      with (if ascii_dec c c' then prefix a s else false).
    destruct (ascii_dec c c'); [apply IH|discriminate].
Qed.

Lemma contains_app_l (a b s : string) :
  contains (a ++ b) s = true -> contains a s = true.
Proof.
  induction s as [|c s IH]; cbn [contains]; intros H.
  - apply orb_true_iff in H as [H|H]; [|discriminate].
    apply prefix_app_l in H. rewrite H. reflexivity.
  - apply orb_true_iff in H as [H|H].
    + apply prefix_app_l in H. rewrite H. reflexivity.
    + rewrite (IH H). apply orb_true_r.
Qed.

Section MoreTool.
Context `{RT : PyRuntime} `{W : World}.
Variable cfg : config.

(** X9.  The test of line 352 is decided by its second operand alone:
    a text whose lower-case form contains ["companyname"] contains
    ["company"] as well, so the fallback is considered exactly for the
    queries that mention ["companyname"] in any capitalization. *)
Theorem companyname_alone_decides (t : string) (s : state) :
  mentions_company (PStr t) s
  = (Return (contains "companyname" (lower t)), s).
Proof.
  unfold mentions_company; run.
  destruct (contains "company" (lower t)) eqn:E; [reflexivity|].
  destruct (contains "companyname" (lower t)) eqn:E'; [|reflexivity].
  apply (contains_app_l "company" "name") in E'. congruence.
Qed.

Lemma inject_company_pure (v : pyval) (s : state) :
  snd (inject_company cfg v s) = s.
Proof.
  unfold inject_company; run.
  repeat (case_scrutinee; run; try reflexivity).
Qed.

Lemma inject_company_dict (d : dict) (s : state) :
  exists d', inject_company cfg (PDict d) s = (Return (PDict d'), s).
Proof.
  unfold inject_company; run.
  destruct (truthy (company_value cfg)); [|eauto].
  destruct (assoc_has "realmId" d); simpl; eauto.
Qed.

Lemma build_payload_query (query variables : pyval) (payload : dict) :
  returns (build_payload cfg query variables) payload ->
  assoc_get "query" payload = Some query.
Proof.
  intros (s & s' & R). revert R. unfold build_payload; run.
  destruct (truthy variables);
    change (assoc_set "variables" variables [("query", query)])
      with [("query", query); ("variables", variables)];
    repeat (case_scrutinee; run; try discriminate);
    intros [= <- _]; rewrite ?assoc_get_set; reflexivity.
Qed.

(** X10.  Every JSON request of a tool call carries as [query] the
    normalized query; for a text that is not JSON this is the text the
    caller passed, character for character. *)
Theorem normalized_query_is_sent
  (query : string) (variables : option dict) (s : state) :
  let s' := snd (intuit_execute_graphql cfg query variables s) in
  exists new,
    trace s' = (trace s ++ new)%list /\
    Forall (fun rq => forall url headers payload,
              rq = POST url headers (JsonBody payload) ->
              py_getitem payload "query"
              = Return (fst (normalize query (opt_dict variables))) /\
              (json_loads query = None ->
               py_getitem payload "query" = Return (PStr query)))
           new.
Proof.
  cbv zeta.
  set (P := fun rq : request => _).
  assert (Ho : P (oauth_request cfg)) by (subst P; simpl; discriminate).
  assert (Hg : forall tok, P (company_info_request cfg tok))
    by (subst P; simpl; discriminate).
  assert (S : sends P (intuit_execute_graphql cfg query variables)).
  { unfold intuit_execute_graphql, execute.
    assert (Hraw : json_loads query = None ->
                   fst (normalize query (opt_dict variables)) = PStr query).
    { intros Hn. apply normalize_raw. intros d q0 Hd. congruence. }
    destruct (normalize query (opt_dict variables)) as [pq pv].
    simpl in Hraw.
    apply sends_bind; [|intros; apply sends_ret].
    apply sends_bind; [apply sends_lift|intros _].
    apply sends_bind; [apply sends_inject_company|intros pv'].
    apply sends_bind.
    - apply sends_make_intuit_request; [exact Ho|].
      intros tok payload Hb. apply build_payload_query in Hb.
      subst P. simpl. intros url headers p [= _ _ <-]. simpl.
      rewrite Hb. split; [reflexivity|].
      intros Hn. rewrite (Hraw Hn). reflexivity.
    - intros result.
      apply sends_bind; [apply sends_lift|intros b].
      destruct (b && truthy (company_value cfg)); [|apply sends_ret].
      apply sends_bind; [apply sends_mentions_company|intros a].
      destruct a; [apply sends_rest_fallback; assumption|apply sends_ret]. }
  destruct (intuit_execute_graphql cfg query variables s) as [o s'] eqn:E.
  exact (S _ _ _ E).
Qed.

Lemma inject_company_unconfigured (v : pyval) (s : state) :
  truthy (company_value cfg) = false ->
  inject_company cfg v s = (Return v, s).
Proof. intros H. unfold inject_company. rewrite H. reflexivity. Qed.

Lemma build_payload_unconfigured (query : pyval) (d payload : dict) :
  truthy (company_value cfg) = false ->
  returns (build_payload cfg query (PDict d)) payload ->
  payload = ("query", query) ::
            match d with [] => [] | _ => [("variables", PDict d)] end.
Proof.
  intros H (s & s' & R). revert R. unfold build_payload. rewrite H.
  destruct d; simpl; intros [= <- _]; reflexivity.
Qed.

(** X11.  Without a company (unset or empty) a tool call sends no GET
    at all, and its JSON request carries the caller's variables as they
    were passed; an absent or empty mapping is left out of the request. *)
Theorem without_company_nothing_is_added
  (query : string) (variables : option dict) (s : state) :
  truthy (company_value cfg) = false ->
  let s' := snd (intuit_execute_graphql cfg query variables s) in
  exists new,
    trace s' = (trace s ++ new)%list /\
    Forall (fun rq =>
              (forall url headers, rq <> GET url headers) /\
              forall url headers payload,
                rq = POST url headers (JsonBody payload) ->
                payload
                = PDict (("query", fst (normalize query (opt_dict variables)))
                         :: match caller_dict variables with
                            | [] => []
                            | d => [("variables", PDict d)]
                            end))
           new.
Proof.
  intros Hc. cbv zeta.
  set (P := fun rq : request => _).
  assert (Ho : P (oauth_request cfg))
    by (subst P; simpl; split; discriminate).
  assert (S : sends P (intuit_execute_graphql cfg query variables)).
  { unfold intuit_execute_graphql, execute.
    pose proof (normalize_variables query variables) as Hn.
    destruct (normalize query (opt_dict variables)) as [pq pv].
    simpl in Hn. subst pv. simpl.
    apply sends_bind; [|intros; apply sends_ret].
    apply sends_bind; [apply sends_lift|intros _].
    apply sends_bind_ret; [apply sends_inject_company|intros pv' (s0 & s0' & R)].
    rewrite (inject_company_unconfigured _ _ Hc) in R. injection R as <- _.
    apply sends_bind.
    - apply sends_make_intuit_request; [exact Ho|].
      intros tok payload Hb.
      apply (build_payload_unconfigured _ _ _ Hc) in Hb. subst payload.
      subst P. simpl. split; [discriminate|].
      intros url headers p [= _ _ <-].
      destruct (caller_dict variables); reflexivity.
    - intros result.
      apply sends_bind; [apply sends_lift|intros b].
      rewrite Hc, andb_false_r. apply sends_ret. }
  destruct (intuit_execute_graphql cfg query variables s) as [o s'] eqn:E.
  exact (S _ _ _ E).
Qed.

(** The fallback never raises: it gives back the result it was handed
    or an object it has mapped. *)
Lemma rest_fallback_returns (result : pyval) (s : state) :
  exists v s',
    rest_fallback cfg result s = (Return v, s') /\
    (v = result \/ exists rest, map_company_info rest = Return v).
Proof.
  assert (K : forall s' : state, exists v (s'' : state),
               (Return result, s') = (Return v, s'') /\
               (v = result \/ exists rest, map_company_info rest = Return v)).
  { intros s'. exists result, s'. split; [reflexivity|left; reflexivity]. }
  unfold rest_fallback, try_except, bind.
  destruct (get_access_token cfg s) as [[tok|e] s1]; [|apply K].
  destruct (send _ s1) as [[resp|e] s2]; [|apply K].
  destruct (status_code resp =? 200); [|apply K].
  destruct (response_json resp s2) as [[rest|e] s3]; [|apply K].
  unfold lift.
  destruct (map_company_info rest) as [m|e] eqn:Hm; [|apply K].
  exists m, s3. split; [reflexivity|]. right. exists rest. exact Hm.
Qed.

Lemma loads_query_raises (query : string) (e : exn) :
  loads_query query = Raise e ->
  json_loads query = None /\ e = decode_exn (json_failure query) /\
  (e = ValueError \/ e = RecursionError \/ e = UnicodeDecodeError).
Proof.
  unfold loads_query.
  destruct (json_loads query); [discriminate|].
  destruct (json_failure query); simpl; try discriminate;
    intros [= <-]; auto.
Qed.

(** X12.  When a tool call raises, one of three things has happened:
    [json.loads(query)] failed otherwise than with the [JSONDecodeError]
    of line 334, before anything was sent; or [make_intuit_request] raised
    that exception; or the normalized query is not a text, the result has
    an [errors] key, a company is configured and the exception is the
    [AttributeError] of [.lower()].  The REST fallback never raises. *)
Theorem tool_raises_in_three_ways_only
  (query : string) (variables : option dict) (s s' : state) (e : exn) :
  intuit_execute_graphql cfg query variables s = (Raise e, s') ->
  let pq := fst (normalize query (opt_dict variables)) in
  (s' = s /\ json_loads query = None /\
   e = decode_exn (json_failure query) /\
   (e = ValueError \/ e = RecursionError \/ e = UnicodeDecodeError))
  \/
  (exists pv', make_intuit_request cfg pq pv' s = (Raise e, s'))
  \/
  (e = AttributeError /\ (forall t, pq <> PStr t) /\
   truthy (company_value cfg) = true /\
   exists pv' result,
     make_intuit_request cfg pq pv' s = (Return result, s') /\
     has_errors_key result = true).
Proof.
  unfold intuit_execute_graphql, execute.
  unfold bind at 1 2. unfold lift at 1.
  destruct (loads_query query) as [[]|e0] eqn:Hl.
  2:{ intros [= <- <-]. left. split; [reflexivity|].
      apply loads_query_raises. exact Hl. }
  pose proof (normalize_variables query variables) as Hn.
  destruct (normalize query (opt_dict variables)) as [pq pv].
  simpl in Hn. subst pv. simpl.
  destruct (inject_company_dict (caller_dict variables) s) as (d' & Hi).
  unfold bind at 1 2. rewrite Hi.
  destruct (make_intuit_request cfg pq (PDict d') s) as [[result|e0] s1]
    eqn:Hm.
  2:{ intros [= <- <-]. right. left. eauto. }
  destruct (make_intuit_request_result _ _ _ _ _ _ Hm) as (b & Hb & _).
  unfold bind at 1. unfold lift at 1. rewrite Hb.
  destruct (b && truthy (company_value cfg)) eqn:Hbc.
  2:{ unfold ret. discriminate. }
  apply andb_true_iff in Hbc as [-> Hc].
  unfold bind.
  pose proof (mentions_company_state pq s1) as Hs.
  destruct (mentions_company pq s1) as [[a|e1] s2] eqn:Hmc;
    simpl in Hs; subst s2.
  - destruct a; [|unfold ret; discriminate].
    destruct (rest_fallback_returns result s1) as (v & s3 & -> & _).
    unfold ret. discriminate.
  - intros [= <- <-]. right. right.
    assert (Hq : forall t, pq <> PStr t).
    { intros t ->. rewrite mentions_company_text in Hmc. discriminate. }
    assert (He : e1 = AttributeError).
    { destruct pq; try (exfalso; eapply Hq; reflexivity);
        revert Hmc; unfold mentions_company; run; intros [= <-];
        reflexivity. }
    repeat split; try assumption.
    exists (PDict d'), result. split; [assumption|].
    unfold has_errors_key. rewrite Hb. reflexivity.
Qed.

(** X13.  A 200 answer of the company-info endpoint that is a JSON
    object without [CompanyInfo] replaces the error result by a company
    object whose three fields are [None]: the errors are not returned. *)
Theorem fallback_without_company_info
  (result tok : pyval) (s s1 : state) (r : response) (d : dict) :
  get_access_token cfg s = (Return tok, s1) ->
  let rq := company_info_request cfg tok in
  net (length (trace s1)) rq = Responded r ->
  status_code r = 200 ->
  json_loads (text r) = Some (PDict d) ->
  assoc_get "CompanyInfo" d = None ->
  rest_fallback cfg result s = (Return empty_company, sent rq s1).
Proof.
  intros Ht rq Hn Hs Hj Hd.
  unfold rest_fallback, try_except, bind. rewrite Ht.
  unfold send. fold rq. rewrite Hn, Hs. simpl.
  unfold response_json. rewrite Hj. unfold ret, lift.
  unfold map_company_info, py_get. rewrite Hd. reflexivity.
Qed.

Lemma rest_fallback_shape (result : pyval) (s s' : state)
  (o : outcome pyval) :
  rest_fallback cfg result s = (o, s') ->
  exists c d,
    trace s' = (trace s ++ c ++ d)%list /\
    at_most_one (eq (oauth_request cfg)) c /\
    at_most_one (is_company_get cfg) d.
Proof.
  unfold rest_fallback, try_except, bind.
  destruct (get_access_token_trace cfg s) as (c & Tc & Hc).
  destruct (get_access_token cfg s) as [[tok|e] s1]; simpl in Tc.
  2:{ intros [= _ <-]. exists c, []. rewrite app_nil_r.
      repeat split; [assumption..|left; reflexivity]. }
  set (rq := company_info_request cfg tok).
  intros Hrun.
  assert (E : s' = sent rq s1).
  { revert Hrun. run. unfold sent.
    repeat (case_scrutinee; run); intros [= _ <-]; reflexivity. }
  subst s'. exists c, [rq]. unfold sent; simpl. rewrite Tc, app_assoc.
  split; [reflexivity|]. split; [assumption|].
  right. exists rq. split; [reflexivity|]. exists tok. reflexivity.
Qed.

(** X14.  A tool call sends at most four requests and never repeats
    one: the token exchange at most once, then the GraphQL request at most
    once, then, for the fallback, the token exchange at most once and the
    company-info GET at most once. *)
Theorem tool_request_budget
  (query : string) (variables : option dict) (s : state) :
  let s' := snd (intuit_execute_graphql cfg query variables s) in
  exists a b c d,
    trace s' = (trace s ++ a ++ b ++ c ++ d)%list /\
    at_most_one (eq (oauth_request cfg)) a /\
    at_most_one (fun rq => exists tok, is_graphql_post cfg tok rq) b /\
    at_most_one (eq (oauth_request cfg)) c /\
    at_most_one (is_company_get cfg) d /\
    (length (a ++ b ++ c ++ d) <= 4)%nat.
Proof.
  cbv zeta.
  assert (L : forall (P1 P2 P3 P4 : request -> Prop) a b c d,
             at_most_one P1 a -> at_most_one P2 b ->
             at_most_one P3 c -> at_most_one P4 d ->
             (length (a ++ b ++ c ++ d) <= 4)%nat).
  { intros P1 P2 P3 P4 a b c d [->|(x1 & -> & _)] [->|(x2 & -> & _)]
      [->|(x3 & -> & _)] [->|(x4 & -> & _)]; simpl; lia. }
  assert (Hnil : forall P, at_most_one P []) by (intros; left; reflexivity).
  unfold intuit_execute_graphql, execute.
  unfold bind at 1 2. unfold lift at 1.
  destruct (loads_query query) as [[]|e0].
  2:{ simpl. exists [], [], [], []. rewrite app_nil_r.
      repeat split; auto. }
  destruct (normalize query (opt_dict variables)) as [pq pv].
  unfold bind at 1 2.
  pose proof (inject_company_pure pv s) as Hi.
  destruct (inject_company cfg pv s) as [[pv'|e] s0]; simpl in Hi; subst s0.
  2:{ simpl. exists [], [], [], []. rewrite app_nil_r.
      repeat split; auto. }
  destruct (make_intuit_request cfg pq pv' s) as [[result|e] s1] eqn:Hm.
  2:{ destruct (make_intuit_request_shape cfg _ _ _ _ _ Hm)
        as (a & b & T & Ha & Hb).
      simpl. exists a, b, [], []. rewrite !app_nil_r.
      assert (Hb' : at_most_one
                      (fun rq => exists tok, is_graphql_post cfg tok rq) b).
      { destruct Hb as [->|(x & -> & Hx)]; [left; reflexivity|].
        right. exists x. split; [reflexivity|].
        destruct Hx as (tok & _ & _ & Hx). eauto. }
      repeat split; auto.
      specialize (L _ _ _ _ a b [] [] Ha Hb' (Hnil (eq (oauth_request cfg)))
                    (Hnil (is_company_get cfg))).
      rewrite !app_nil_r in L. exact L. }
  destruct (make_intuit_request_shape cfg _ _ _ _ _ Hm) as (a & b & T & Ha & Hb).
  assert (Hb' : at_most_one
                  (fun rq => exists tok, is_graphql_post cfg tok rq) b).
  { destruct Hb as [->|(x & -> & Hx)]; [left; reflexivity|].
    right. exists x. split; [reflexivity|].
    destruct Hx as (tok & _ & _ & Hx). eauto. }
  assert (Stop : forall o,
             exists a0 b0 c d,
               trace (snd (o : outcome string, s1))
               = (trace s ++ a0 ++ b0 ++ c ++ d)%list /\
               at_most_one (eq (oauth_request cfg)) a0 /\
               at_most_one
                 (fun rq => exists tok, is_graphql_post cfg tok rq) b0 /\
               at_most_one (eq (oauth_request cfg)) c /\
               at_most_one (is_company_get cfg) d /\
               (length (a0 ++ b0 ++ c ++ d) <= 4)%nat).
  { intros o. simpl. exists a, b, [], []. rewrite !app_nil_r.
    repeat split; auto.
    specialize (L _ _ _ _ a b [] [] Ha Hb' (Hnil (eq (oauth_request cfg)))
                  (Hnil (is_company_get cfg))).
    rewrite !app_nil_r in L. exact L. }
  unfold bind at 1. unfold lift at 1.
  destruct (py_in "errors" result) as [hb|e]; [|apply Stop].
  destruct (hb && truthy (company_value cfg)); [|apply Stop].
  unfold bind.
  pose proof (mentions_company_state pq s1) as Hs.
  destruct (mentions_company pq s1) as [[ap|e] s2]; simpl in Hs; subst s2;
    [|apply Stop].
  destruct ap; [|apply Stop].
  destruct (rest_fallback cfg result s1) as [[v|e] s3] eqn:Hf;
    destruct (rest_fallback_shape _ _ _ _ Hf) as (c & d & T' & Hc & Hd);
    simpl; exists a, b, c, d;
    (split; [rewrite T', T, <- !app_assoc; reflexivity|]);
    repeat split; auto; eapply L; eauto.
Qed.

(** What a tool call sends after [make_intuit_request] comes on top of
    what that call has sent. *)
Lemma tool_trace_after_request
  (query : string) (variables : option dict) (s : state)
  (pq pv pv' : pyval) :
  loads_query query = Return tt ->
  normalize query (opt_dict variables) = (pq, pv) ->
  inject_company cfg pv s = (Return pv', s) ->
  exists new,
    trace (snd (intuit_execute_graphql cfg query variables s))
    = (trace (snd (make_intuit_request cfg pq pv' s)) ++ new)%list.
Proof.
  intros Hl Hn Hi.
  unfold intuit_execute_graphql, execute.
  unfold bind at 1 2. unfold lift at 1. rewrite Hl, Hn.
  unfold bind at 1 2. rewrite Hi.
  destruct (make_intuit_request cfg pq pv' s) as [[result|e] s1].
  2:{ exists []. simpl. rewrite app_nil_r. reflexivity. }
  set (c := bind (lift (py_in "errors" result)) _).
  assert (S : sends (fun _ => True) c).
  { subst c.
    apply sends_bind; [apply sends_lift|intros b].
    destruct (b && truthy (company_value cfg)); [|apply sends_ret].
    apply sends_bind; [apply sends_mentions_company|intros a].
    destruct a; [apply sends_rest_fallback; auto|apply sends_ret]. }
  destruct (c s1) as [[a|e] s2] eqn:E;
    destruct (S _ _ _ E) as (new & T & _); exists new; exact T.
Qed.

(** X20.  With a company configured, every JSON request of a tool call
    carries exactly the normalized query and the variables argument with
    the company added as [realmId] unless the argument has one; the other
    entries of the argument are sent as they are.  That request is sent
    whenever [json.loads(query)] does not fail otherwise than on a
    malformed text, the token provider returns a token and the normalized
    query is a text. *)
Theorem variables_argument_gets_the_company
  (c : string) (query : string) (variables : option dict) (s : state) :
  INTUIT_COMPANY_ID cfg = Some c -> c <> "" ->
  let s' := snd (intuit_execute_graphql cfg query variables s) in
  (exists new,
     trace s' = (trace s ++ new)%list /\
     Forall (fun rq => forall url headers payload,
               rq = POST url headers (JsonBody payload) ->
               payload = expected_payload c query variables)
            new)
  /\
  (forall tok s1 t,
     loads_query query = Return tt ->
     get_access_token cfg s = (Return tok, s1) ->
     fst (normalize query (opt_dict variables)) = PStr t ->
     In (POST (INTUIT_GRAPHQL_URL cfg) (graphql_headers tok)
              (JsonBody (expected_payload c query variables)))
        (trace s'))
  /\
  (assoc_get "realmId" (injected c (caller_dict variables))
   = Some (match assoc_get "realmId" (caller_dict variables) with
           | Some v => v
           | None => PStr c
           end) /\
   forall k, k <> "realmId" ->
     assoc_get k (injected c (caller_dict variables))
     = assoc_get k (caller_dict variables)).
Proof.
  intros Hc Hne. cbv zeta. unfold expected_payload.
  pose proof (normalize_variables query variables) as Hn.
  destruct (normalize query (opt_dict variables)) as [pq pv] eqn:En.
  simpl in Hn. subst pv. simpl fst.
  split; [|split].
  - set (P := fun rq : request => _).
    assert (Ho : P (oauth_request cfg)) by (subst P; simpl; discriminate).
    assert (Hg : forall tok, P (company_info_request cfg tok))
      by (subst P; simpl; discriminate).
    assert (S : sends P (intuit_execute_graphql cfg query variables)).
    { unfold intuit_execute_graphql, execute. rewrite En.
      apply sends_bind; [|intros; apply sends_ret].
      apply sends_bind; [apply sends_lift|intros _].
      apply sends_bind_ret;
        [apply sends_inject_company|intros pv' (s0 & s0' & R)].
      rewrite (inject_company_configured cfg c _ s0 Hc Hne) in R.
      injection R as <- _.
      apply sends_bind.
      - apply sends_make_intuit_request; [exact Ho|].
        intros tok payload Hb.
        rewrite (build_payload_injected cfg c _ _ _ Hc Hne Hb).
        subst P. simpl. intros url headers p [= _ _ <-]. reflexivity.
      - intros result.
        apply sends_bind; [apply sends_lift|intros b].
        destruct (b && truthy (company_value cfg)); [|apply sends_ret].
        apply sends_bind; [apply sends_mentions_company|intros a].
        destruct a; [apply sends_rest_fallback; assumption|apply sends_ret]. }
    destruct (intuit_execute_graphql cfg query variables s) as [o s'] eqn:E.
    exact (S _ _ _ E).
  - intros tok s1 t Hl Ht ->.
    pose proof (inject_company_configured cfg c (caller_dict variables) s
                  Hc Hne) as Hi.
    destruct (tool_trace_after_request query variables s _ _ _ Hl En Hi)
      as (new & T).
    rewrite T.
    rewrite (make_intuit_request_sends cfg (PStr t)
               (PDict (injected c (caller_dict variables))) tok
               [("query", PStr t);
                ("variables", PDict (injected c (caller_dict variables)))]
               s s1 Ht).
    + unfold sent; simpl. apply in_or_app. left. apply in_or_app. right.
      left. reflexivity.
    + apply build_payload_with_realm.
      * eapply company_truthy; eauto.
      * unfold assoc_has. rewrite injected_realm. reflexivity.
    + reflexivity.
  - split; [apply injected_realm|]. intros k Hk.
    apply injected_frame. exact Hk.
Qed.

End MoreTool.


(** ** Serving with a valid token *)

Section ValidToken.
Context `{RT : PyRuntime} `{W : World}.
Variable cfg : config.
Variable c0 : cache.
Variable n0 : nat.
Hypothesis valid_from_n0 :
  forall n, (n0 <= n)%nat -> cache_valid c0 (clock n) = true.
Hypothesis token_slices : py_slice_ok (access_token c0) = Return tt.

Lemma keeps_pure {A} (c : M A) :
  (forall s, snd (c s) = s) ->
  keeps (cache_is c0 n0) not_a_token_exchange c.
Proof.
  intros H s o s' Hc Hi. specialize (H s). rewrite Hc in H. simpl in H.
  subst s'. split; [assumption|]. exists []. rewrite app_nil_r. auto.
Qed.

Lemma keeps_bind {A B} (c : M A) (k : A -> M B) :
  keeps (cache_is c0 n0) not_a_token_exchange c ->
  (forall a, keeps (cache_is c0 n0) not_a_token_exchange (k a)) ->
  keeps (cache_is c0 n0) not_a_token_exchange (bind c k).
Proof.
  intros Hc Hk s o s'. unfold bind.
  destruct (c s) as [[a|e] s1] eqn:E; intros Hrun Hi.
  - destruct (Hc _ _ _ E Hi) as (I1 & n1 & T1 & F1).
    destruct (Hk a _ _ _ Hrun I1) as (I2 & n2 & T2 & F2).
    split; [assumption|]. exists (n1 ++ n2)%list. split.
    + rewrite T2, T1, app_assoc. reflexivity.
    + apply Forall_app; auto.
  - injection Hrun as <- <-. eapply Hc; eauto.
Qed.

Lemma keeps_try {A} (c : M A) (h : exn -> M A) :
  keeps (cache_is c0 n0) not_a_token_exchange c ->
  (forall e, keeps (cache_is c0 n0) not_a_token_exchange (h e)) ->
  keeps (cache_is c0 n0) not_a_token_exchange (try_except c h).
Proof.
  intros Hc Hh s o s'. unfold try_except.
  destruct (c s) as [[a|e] s1] eqn:E; intros Hrun Hi.
  - injection Hrun as <- <-. eapply Hc; eauto.
  - destruct (Hc _ _ _ E Hi) as (I1 & n1 & T1 & F1).
    destruct (Hh e _ _ _ Hrun I1) as (I2 & n2 & T2 & F2).
    split; [assumption|]. exists (n1 ++ n2)%list. split.
    + rewrite T2, T1, app_assoc. reflexivity.
    + apply Forall_app; auto.
Qed.

Lemma keeps_send (rq : request) :
  not_a_token_exchange rq ->
  keeps (cache_is c0 n0) not_a_token_exchange (send rq).
Proof.
  intros Hrq s o s'. unfold send.
  destruct (net _ _); intros [= <- <-] Hi; (split; [exact Hi|]);
    exists [rq]; simpl; auto.
Qed.

(** With the cache valid at every later clock reading, the provider
    takes the cached path. *)
Lemma keeps_get_access_token :
  keeps (cache_is c0 n0) not_a_token_exchange (get_access_token cfg).
Proof.
  intros s o s' Hrun [Hc Hn]. revert Hrun.
  unfold get_access_token; run.
  rewrite Hc, (valid_from_n0 _ Hn), token_slices. simpl.
  intros [= <- <-]. split.
  - split; simpl; [reflexivity || assumption|lia].
  - exists []. simpl. rewrite app_nil_r. auto.
Qed.

Ltac keeps_step :=
  first
    [ apply keeps_get_access_token
    | apply keeps_bind; [|intros ?]
    | apply keeps_try; [|intros ?]
    | apply keeps_send; intros ? ? ?; discriminate
    | apply keeps_pure; reflexivity
    | match goal with
      | |- keeps _ _ (if ?b then _ else _) => destruct b
      | |- keeps _ _ (match ?x with _ => _ end) => destruct x
      end ].

Lemma keeps_make_intuit_request (query variables : pyval) :
  keeps (cache_is c0 n0) not_a_token_exchange
    (make_intuit_request cfg query variables).
Proof.
  unfold make_intuit_request.
  apply keeps_try.
  - unfold graphql_call.
    apply keeps_bind; [apply keeps_get_access_token|intros tok].
    apply keeps_bind;
      [apply keeps_pure; apply build_payload_pure|intros payload].
    unfold raise_for_status, response_json.
    repeat keeps_step.
  - intros e. destruct e; try (apply keeps_pure; reflexivity).
    apply keeps_bind;
      [apply keeps_pure; apply status_error_detail_pure
      |intros; apply keeps_pure; reflexivity].
Qed.

Lemma keeps_rest_fallback (result : pyval) :
  keeps (cache_is c0 n0) not_a_token_exchange (rest_fallback cfg result).
Proof.
  unfold rest_fallback, response_json. repeat keeps_step.
Qed.

Lemma keeps_tool (query : string) (variables : option dict) :
  keeps (cache_is c0 n0) not_a_token_exchange
    (intuit_execute_graphql cfg query variables).
Proof.
  unfold intuit_execute_graphql, execute.
  destruct (normalize query (opt_dict variables)) as [pq pv].
  apply keeps_bind; [|intros; apply keeps_pure; reflexivity].
  apply keeps_bind; [apply keeps_pure; reflexivity|intros _].
  apply keeps_bind;
    [apply keeps_pure; apply inject_company_pure|intros pv'].
  apply keeps_bind; [apply keeps_make_intuit_request|intros result].
  apply keeps_bind; [apply keeps_pure; reflexivity|intros b].
  destruct (b && truthy (company_value cfg));
    [|apply keeps_pure; reflexivity].
  apply keeps_bind;
    [apply keeps_pure; apply mentions_company_state|intros a].
  destruct a; [apply keeps_rest_fallback|apply keeps_pure; reflexivity].
Qed.

Lemma keeps_serve (calls : list (string * option dict)) (s : state) :
  cache_is c0 n0 s ->
  cache_is c0 n0 (snd (serve cfg calls s)) /\
  exists new,
    trace (snd (serve cfg calls s)) = (trace s ++ new)%list /\
    Forall not_a_token_exchange new.
Proof.
  revert s. induction calls as [|[query variables] calls IH]; intros s Hi.
  - simpl. split; [assumption|]. exists []. rewrite app_nil_r. auto.
  - simpl.
    destruct (intuit_execute_graphql cfg query variables s) as [o s1] eqn:E.
    destruct (keeps_tool query variables _ _ _ E Hi) as (I1 & n1 & T1 & F1).
    specialize (IH s1 I1).
    destruct (serve cfg calls s1) as [os s2]. simpl in *.
    destruct IH as (I2 & n2 & T2 & F2).
    split; [assumption|]. exists (n1 ++ n2)%list. split.
    + rewrite T2, T1, app_assoc. reflexivity.
    + apply Forall_app; auto.
Qed.

End ValidToken.

Section Serving.
Context `{RT : PyRuntime} `{W : World}.
Variable cfg : config.

(** X15.  While the cache holds a non-empty token string whose expiry
    is more than 60 seconds after every later clock reading, any number of
    tool calls performs no token exchange and leaves the cache as it is. *)
Theorem valid_token_means_no_token_exchange
  (calls : list (string * option dict)) (s : state) (t : string) :
  access_token (token_cache s) = PStr t -> t <> "" ->
  (forall n, (clock_reads s <= n)%nat ->
             clock n + 60 < expires_at (token_cache s)) ->
  let s' := snd (serve cfg calls s) in
  token_cache s' = token_cache s /\
  exists new,
    trace s' = (trace s ++ new)%list /\ Forall not_a_token_exchange new.
Proof.
  intros Ht Hne Hclock. cbv zeta.
  destruct (keeps_serve cfg (token_cache s) (clock_reads s)) with
    (calls := calls) (s := s) as ((Hc & _) & Hnew).
  - intros n Hn. unfold cache_valid. rewrite Ht.
    specialize (Hclock n Hn). apply Z.ltb_lt in Hclock. rewrite Hclock.
    destruct t; [congruence|reflexivity].
  - rewrite Ht. reflexivity.
  - split; [reflexivity|lia].
  - split; assumption.
Qed.

Lemma serve_length (calls : list (string * option dict)) (s : state) :
  length (fst (serve cfg calls s)) = length calls.
Proof.
  revert s. induction calls as [|[query variables] calls IH]; intros s.
  - reflexivity.
  - simpl.
    destruct (intuit_execute_graphql cfg query variables s) as [o s1].
    specialize (IH s1). destruct (serve cfg calls s1) as [os s2].
    simpl in *. rewrite IH. reflexivity.
Qed.

End Serving.

(** ** Further properties of the start-up *)

Section MoreStartup.
Context `{RT : PyRuntime} `{W : World}.

(** X16.  With the three credentials set and non-empty the server is
    run: every incoming call gets one reply, and neither the ERROR nor the
    FATAL line is written. *)
Theorem complete_credentials_are_served
  (env : string -> option string) (calls : list (string * option dict))
  (a b c : string) :
  env "INTUIT_CLIENT_ID" = Some a ->
  env "INTUIT_CLIENT_SECRET" = Some b ->
  env "INTUIT_REFRESH_TOKEN" = Some c ->
  a <> "" -> b <> "" -> c <> "" ->
  let p := main env calls in
  status p = Served /\
  length (replies p) = length calls /\
  ~ In msg_error (stderr p) /\ ~ In msg_fatal (stderr p).
Proof.
  intros Ha Hb Hc Na Nb Nc p. subst p.
  unfold main, import_module, load_config, credentials_present.
  cbn [INTUIT_CLIENT_ID INTUIT_CLIENT_SECRET INTUIT_REFRESH_TOKEN].
  rewrite Ha, Hb, Hc.
  cbn [debug_credential opt_truthy INTUIT_CLIENT_ID INTUIT_CLIENT_SECRET
       INTUIT_REFRESH_TOKEN].
  assert (E : str_nonempty a && str_nonempty b && str_nonempty c = true).
  { destruct a, b, c; try congruence; reflexivity. }
  rewrite E.
  cbn [negb stderr status replies final opt_truthy INTUIT_CLIENT_ID
       INTUIT_CLIENT_SECRET INTUIT_REFRESH_TOKEN].
  rewrite ?E. cbn [negb].
  match goal with
  | |- context [serve ?cfg calls initial_state] =>
      pose proof (serve_length cfg calls initial_state) as Hl;
      destruct (serve cfg calls initial_state) as [os s]
  end.
  simpl in Hl. cbn [stderr status replies final].
  split; [reflexivity|]. split; [exact Hl|].
  split; intros Hin; apply in_app_or in Hin as [Hin|Hin]; simpl in Hin;
    repeat match goal with
           | H : _ \/ _ |- _ => destruct H as [H|H]
           | H : False |- _ => contradiction
           | H : _ = msg_error |- _ => discriminate H
           | H : _ = msg_fatal |- _ => discriminate H
           end.
Qed.

(** X17.  The sandbox endpoint is used exactly when
    [INTUIT_ENVIRONMENT] is unset or is the string ["sandbox"] itself;
    any other value, the empty string and other capitalizations included,
    selects the production endpoint. *)
Theorem sandbox_needs_the_exact_word (env : string -> option string) :
  (INTUIT_GRAPHQL_URL (load_config env)
   = "https://public-e2e.api.intuit.com/2020-04/graphql"
   <-> (env "INTUIT_ENVIRONMENT" = None
        \/ env "INTUIT_ENVIRONMENT" = Some "sandbox")) /\
  (INTUIT_GRAPHQL_URL (load_config env)
   = "https://public.api.intuit.com/2020-04/graphql"
   <-> (exists v, env "INTUIT_ENVIRONMENT" = Some v /\ v <> "sandbox")).
Proof.
  unfold INTUIT_GRAPHQL_URL, load_config, getenv_default.
  cbn [INTUIT_ENVIRONMENT].
  destruct (env "INTUIT_ENVIRONMENT") as [v|].
  - destruct (String.eqb_spec v "sandbox") as [->|Hne].
    + split; split; intros H; auto; try discriminate.
      destruct H as (v & [= <-] & Hv). congruence.
    + split; split; intros H; try discriminate; eauto.
      destruct H as [H|[= H]]; [discriminate|contradiction].
  - simpl. split; split; intros H; auto; try discriminate.
    destruct H as (v & H & _). discriminate.
Qed.

End MoreStartup.


(** ** Further scenarios *)

Module MoreScenario.
Import Sample.

Lemma returned_token_is_reused_witness :
  let s1 := snd (@get_access_token runtime happy_world (cfg None)
                   initial_state) in
  @get_access_token runtime happy_world (cfg None) s1
  = (Return (PStr "tok"), tick s1).
Proof.
  apply (@returned_token_is_reused runtime happy_world (cfg None)
           initial_state).
  - vm_compute. reflexivity.
  - discriminate.
  - vm_compute. reflexivity.
Defined.

Lemma failed_exchange_keeps_cache_witness :
  @get_access_token runtime (world 1000 [Failed "boom"]) (cfg None)
    initial_state
  = (Raise (RequestError "boom"),
     sent (oauth_request (cfg None)) (tick initial_state)).
Proof.
  apply (@failed_exchange_keeps_cache runtime (world 1000 [Failed "boom"])
           (cfg None) initial_state eq_refl eq_refl).
  reflexivity.
Defined.

Lemma get_access_token_raises_witness :
  let w := world 1000 [ok doc_token_only] in
  let s' := snd (@get_access_token runtime w (cfg None) initial_state) in
  token_cache s' = token_cache initial_state
  \/ (exists tok,
        token_cache s'
        = {| access_token := tok;
             expires_at := expires_at (token_cache initial_state) |} /\
        (KeyError = KeyError \/ KeyError = TypeError
         \/ KeyError = OverflowError))
  \/ (exists tok d,
        token_cache s'
        = {| access_token := tok;
             expires_at := @clock w (clock_reads initial_state) + d |} /\
        py_slice_ok tok = Raise KeyError).
Proof.
  apply (@get_access_token_raises runtime (world 1000 [ok doc_token_only])
           (cfg None) initial_state).
  vm_compute. reflexivity.
Defined.

(** A 200 answer that reports GraphQL errors comes back as it is. *)
Lemma success_body_is_returned_witness :
  fst (@make_intuit_request runtime
         (world 1000 [ok doc_token_3600; ok doc_bad_field]) (cfg None)
         (PStr company_query) (PDict []) initial_state)
  = Return (PDict [("errors",
                    PList [PDict [("message", PStr "Bad field")]])]).
Proof.
  rewrite (@success_body_is_returned runtime
             (world 1000 [ok doc_token_3600; ok doc_bad_field]) (cfg None)
             (PStr company_query) (PDict []) (PStr "tok")
             [("query", PStr company_query)] initial_state
             (snd (@get_access_token runtime
                     (world 1000 [ok doc_token_3600; ok doc_bad_field])
                     (cfg None) initial_state))
             {| status_code := 200; text := doc_bad_field |}
             [("errors", PList [PDict [("message", PStr "Bad field")]])]
             eq_refl eq_refl eq_refl eq_refl eq_refl eq_refl).
  reflexivity.
Defined.

(** An OAuth-style error body of the GraphQL endpoint. *)
Lemma status_error_messages_witness :
  let w := world 1000 [ok doc_token_3600;
                       Fixture.unauthorized Fixture.doc_oauth_error] in
  fst (@make_intuit_request Fixture.runtime w (cfg None)
         (PStr company_query) (PDict []) initial_state)
  = Return (envelope "HTTP Status Error: 401 - invalid_grant").
Proof.
  intros w.
  pose proof (@status_error_messages Fixture.runtime w (cfg None)
                (PStr company_query) (PDict []) initial_state
                (snd (@make_intuit_request Fixture.runtime w (cfg None)
                        (PStr company_query) (PDict []) initial_state))
                {| status_code := 401; text := Fixture.doc_oauth_error |}
                eq_refl) as (_ & _ & _ & H).
  rewrite (H [("error", PDict [("message", PStr "invalid_grant")])]
             [("message", PStr "invalid_grant")] "invalid_grant"
             eq_refl eq_refl eq_refl eq_refl).
  reflexivity.
Defined.

Lemma make_intuit_request_raises_only_in_status_handler_witness :
  let w := rejecting_world doc_no_errors in
  exists r,
    @graphql_call runtime w (cfg None) (PStr company_query) (PDict [])
      initial_state
    = (Raise (HTTPStatusError r),
       snd (@make_intuit_request runtime w (cfg None) (PStr company_query)
              (PDict []) initial_state)) /\
    ((exists v, @json_loads runtime (text r) = Some v /\
                (IndexError = TypeError \/ IndexError = KeyError
                 \/ IndexError = IndexError))
     \/
     (@json_loads runtime (text r) = None /\
      IndexError = decode_exn (@json_failure runtime (text r)) /\
      (IndexError = ValueError \/ IndexError = RecursionError
       \/ IndexError = UnicodeDecodeError))).
Proof.
  apply (@make_intuit_request_raises_only_in_status_handler runtime
           (rejecting_world doc_no_errors) (cfg None)).
  vm_compute. reflexivity.
Defined.

Lemma missing_credentials_are_reported_witness :
  @make_intuit_request runtime (world 1000 []) cfg_empty_secret
    (PStr company_query) (PDict []) initial_state
  = (Return missing_credentials_envelope, tick initial_state).
Proof.
  apply (@missing_credentials_are_reported runtime (world 1000 [])
           cfg_empty_secret); reflexivity.
Defined.

Lemma direct_call_payload_witness :
  exists new,
    trace (snd (@make_intuit_request runtime happy_world (cfg (Some "42"))
                  (PStr company_query) (PDict []) initial_state))
    = (trace initial_state ++ new)%list /\
    Forall (fun rq => forall url headers payload,
              rq = POST url headers (JsonBody payload) ->
              payload = PDict [("query", PStr company_query)])
           new.
Proof.
  apply (@direct_call_payload runtime happy_world (cfg (Some "42")) "42"
           (PStr company_query) [] initial_state eq_refl).
  discriminate.
Defined.

Lemma without_company_nothing_is_added_witness :
  exists new,
    trace (snd (@intuit_execute_graphql runtime happy_world (cfg None)
                  company_query (Some [("first", PInt 10)]) initial_state))
    = (trace initial_state ++ new)%list /\
    Forall (fun rq =>
              (forall url headers, rq <> GET url headers) /\
              forall url headers payload,
                rq = POST url headers (JsonBody payload) ->
                payload
                = PDict [("query",
                          fst (@normalize runtime company_query
                                 (opt_dict (Some [("first", PInt 10)]))));
                         ("variables", PDict [("first", PInt 10)])])
           new.
Proof.
  apply (@without_company_nothing_is_added runtime happy_world (cfg None)
           company_query (Some [("first", PInt 10)]) initial_state).
  reflexivity.
Defined.

Lemma tool_raises_in_three_ways_only_witness :
  let c := cfg (Some "42") in
  let s' := snd (@intuit_execute_graphql runtime happy_world c doc_query_5
                   None initial_state) in
  let pq := fst (@normalize runtime doc_query_5 (opt_dict None)) in
  (s' = initial_state /\ @json_loads runtime doc_query_5 = None /\
   AttributeError = decode_exn (@json_failure runtime doc_query_5) /\
   (AttributeError = ValueError \/ AttributeError = RecursionError
    \/ AttributeError = UnicodeDecodeError))
  \/
  (exists pv',
     @make_intuit_request runtime happy_world c pq pv' initial_state
     = (Raise AttributeError, s'))
  \/
  (AttributeError = AttributeError /\ (forall t, pq <> PStr t) /\
   truthy (company_value c) = true /\
   exists pv' result,
     @make_intuit_request runtime happy_world c pq pv' initial_state
     = (Return result, s') /\
     has_errors_key result = true).
Proof.
  apply (@tool_raises_in_three_ways_only runtime happy_world
           (cfg (Some "42")) doc_query_5 None initial_state).
  vm_compute. reflexivity.
Defined.

Lemma fallback_without_company_info_witness :
  let w := world 1000 [ok doc_token_3600; ok Fixture.doc_empty_object] in
  fst (@rest_fallback Fixture.runtime w (cfg (Some "42"))
         (envelope "HTTP Request Error connecting to Intuit: boom")
         initial_state)
  = Return empty_company.
Proof.
  intros w.
  rewrite (@fallback_without_company_info Fixture.runtime w
             (cfg (Some "42"))
             (envelope "HTTP Request Error connecting to Intuit: boom")
             (PStr "tok") initial_state
             (snd (@get_access_token Fixture.runtime w (cfg (Some "42"))
                     initial_state))
             {| status_code := 200; text := Fixture.doc_empty_object |}
             [] eq_refl eq_refl eq_refl eq_refl eq_refl).
  reflexivity.
Defined.

(** Two calls on a token cached until 5000, the clock standing at 1000. *)
Lemma valid_token_means_no_token_exchange_witness :
  let w := world 1000 [ok doc_data; ok doc_data] in
  let calls := [(company_query, None); (doc_wrapped, None)] in
  let s' := snd (@serve runtime w (cfg None) calls (cached 5000)) in
  token_cache s' = token_cache (cached 5000) /\
  exists new,
    trace s' = (trace (cached 5000) ++ new)%list /\
    Forall not_a_token_exchange new.
Proof.
  apply (@valid_token_means_no_token_exchange runtime
           (world 1000 [ok doc_data; ok doc_data]) (cfg None)
           [(company_query, None); (doc_wrapped, None)] (cached 5000)
           "cached" eq_refl).
  - discriminate.
  - intros n _. simpl. lia.
Defined.

(** What those two calls send: one GraphQL request each. *)
Example two_calls_on_a_valid_token :
  length (trace (snd (@serve runtime (world 1000 [ok doc_data; ok doc_data])
                        (cfg None)
                        [(company_query, None); (doc_wrapped, None)]
                        (cached 5000))))
  = 2%nat.
Proof. vm_compute. reflexivity. Qed.

Lemma complete_credentials_are_served_witness :
  let p := @main runtime happy_world Fixture.env_complete
             [(company_query, None)] in
  status p = Served /\
  length (replies p) = 1%nat /\
  ~ In msg_error (stderr p) /\ ~ In msg_fatal (stderr p).
Proof.
  apply (@complete_credentials_are_served runtime happy_world
           Fixture.env_complete [(company_query, None)]
           "client" "secret" "refresh" eq_refl eq_refl eq_refl);
    discriminate.
Defined.

Lemma empty_credential_is_refused_witness :
  let p := @main runtime (world 1000 []) env_empty_secret
             [(company_query, None)] in
  status p = Refused /\
  In msg_error (stderr p) /\ In msg_fatal (stderr p) /\
  replies p = [] /\ final p = initial_state.
Proof.
  apply (@empty_credential_is_refused runtime (world 1000 [])
           env_empty_secret [(company_query, None)]
           "client" "" "refresh" eq_refl eq_refl eq_refl).
  right. left. reflexivity.
Defined.

Lemma variables_argument_gets_the_company_witness :
  In (POST (INTUIT_GRAPHQL_URL (cfg (Some "42")))
           (@graphql_headers runtime (PStr "tok"))
           (JsonBody (PDict [("query", PStr company_query);
                             ("variables", PDict [("first", PInt 10);
                                                  ("realmId", PStr "42")])])))
     (trace (snd (@intuit_execute_graphql runtime happy_world
                    (cfg (Some "42")) company_query
                    (Some [("first", PInt 10)]) initial_state))).
Proof.
  destruct (@variables_argument_gets_the_company runtime happy_world
              (cfg (Some "42")) "42" company_query
              (Some [("first", PInt 10)]) initial_state eq_refl)
    as (_ & H & _); [discriminate|].
  exact (H (PStr "tok")
           (snd (@get_access_token runtime happy_world (cfg (Some "42"))
                   initial_state))
           company_query eq_refl eq_refl eq_refl).
Defined.

(** A query text the decoder refuses with a [ValueError]: the tool
    raises it before anything is sent. *)
Example undecodable_query_raises :
  @intuit_execute_graphql Fixture.strict_runtime happy_world (cfg None)
    Fixture.many_digits None initial_state
  = (Raise ValueError, initial_state).
Proof. vm_compute. reflexivity. Qed.

(** The same text as the body of an HTTP 400 answer: the [ValueError]
    of [e.response.json()] leaves [make_intuit_request]. *)
Example undecodable_error_body_raises :
  fst (@make_intuit_request Fixture.strict_runtime
         (rejecting_world Fixture.many_digits) (cfg None)
         (PStr company_query) (PDict []) initial_state)
  = Raise ValueError.
Proof. vm_compute. reflexivity. Qed.

(** A malformed body of an HTTP 400 answer is quoted. *)
Example malformed_error_body_is_quoted :
  fst (@make_intuit_request Fixture.strict_runtime
         (rejecting_world "Bad Request") (cfg None)
         (PStr company_query) (PDict []) initial_state)
  = Return (envelope "HTTP Status Error: 400 - Response: Bad Request").
Proof. vm_compute. reflexivity. Qed.

(** An [expires_in] too large for a float: the token is stored, the
    addition raises and the old expiry stays. *)
Example huge_expires_in_overflows :
  py_add_time 1000 (PInt (10 ^ 400)) = Raise OverflowError /\
  py_add_time 1000 (PInt 3600) = Return 4600.
Proof. vm_compute. split; reflexivity. Qed.

End MoreScenario.
